(** * tools/config.py: resolution of the Emscripten configuration

    A shallow embedding of [tools/config.py].  Python values are modelled
    as a small inductive type; the module globals are a finite map from
    names to values; [exit_with_error], [sys.exit] and uncaught Python
    exceptions are the three abnormal results of the [outcome] monad.

    Lists are the only mutable objects the module touches, and it mutates
    one of them in place ([new_spidermonkey += ['-w']]).  Every list value
    therefore carries the identity of its object, and the in-place update
    rewrites every reference to that object.

    The file system, the environment and [sys.argv] are explicit state.
    [os.path], [utils] and Python's [exec] are parameters; [os.path] is the
    POSIX one, whose [expanduser] reads [HOME].  Evaluating the
    configuration text runs arbitrary code: [exec] reads the whole state of
    the process and leaves a new one.  A text whose evaluation does not
    return is not modelled, nor is what the module writes to the debug log
    and to diagnostic output. *)

From stdpp Require Import gmap strings list fin_maps pretty.
From Stdlib Require Import ZArith Ascii String.

Local Open Scope string_scope.
Local Open Scope Z_scope.

(** ** Python values *)

Module Py.

(** The identity of a list object: made while the configuration text was
    evaluated, or made by the module itself.  Objects of the two origins
    are never the same object. *)
Inductive ident : Type :=
  | Cfg (n : nat)
  | Mod (n : nat).

Definition ident_eqb (a b : ident) : bool :=
  match a, b with
  | Cfg m, Cfg n => Nat.eqb m n
  | Mod m, Mod n => Nat.eqb m n
  | _, _ => false
  end.

(** The values a configuration binds to the recognized keys: [None],
    booleans, integers, strings and lists of such values.
    [VList id items] is a reference to the list object [id], shown with its
    current contents.  Two references with the same [id] are the same
    object (aliases). *)
#[local] Unset Elimination Schemes.
Inductive value : Type :=
  | VNone
  | VBool (b : bool)
  | VInt (z : Z)
  | VStr (s : string)
  | VList (id : ident) (items : list value).
#[local] Set Elimination Schemes.

Global Instance value_inhabited : Inhabited value := populate VNone.

(** Uncaught Python exceptions that the module can run into. *)
Inductive exn : Type :=
  | TypeError
  | IndexError
  | FileNotFoundError.

(** [bool(x)], as used by [if x] and [not x]. *)
Definition truthy (v : value) : bool :=
  match v with
  | VNone => false
  | VBool b => b
  | VInt z => negb (z =? 0)
  | VStr s => negb (String.eqb s "")
  | VList _ items => negb (Nat.eqb (List.length items) 0)
  end.

(** [a == b].  Object identity plays no role; [bool] is a subclass of
    [int], so [True == 1]. *)
Fixpoint py_eq (a b : value) : bool :=
  match a, b with
  | VNone, VNone => true
  | VBool x, VBool y => Bool.eqb x y
  | VInt x, VInt y => x =? y
  | VBool x, VInt y => Z.b2z x =? y
  | VInt x, VBool y => x =? Z.b2z y
  | VStr x, VStr y => String.eqb x y
  | VList _ xs, VList _ ys =>
      (fix go (xs ys : list value) : bool :=
         match xs, ys with
         | [], [] => true
         | x :: xs', y :: ys' => py_eq x y && go xs' ys'
         | _, _ => false
         end) xs ys
  | _, _ => false
  end.

(** Strict equality, identities included. *)
Fixpoint value_beq (a b : value) : bool :=
  match a, b with
  | VNone, VNone => true
  | VBool x, VBool y => Bool.eqb x y
  | VInt x, VInt y => x =? y
  | VStr x, VStr y => String.eqb x y
  | VList i xs, VList j ys =>
      ident_eqb i j &&
      (fix go (xs ys : list value) : bool :=
         match xs, ys with
         | [], [] => true
         | x :: xs', y :: ys' => value_beq x y && go xs' ys'
         | _, _ => false
         end) xs ys
  | _, _ => false
  end.

(** *** Strings.  A character is a code point below 256. *)

(** [needle in hay] for two strings. *)
Fixpoint str_contains (needle hay : string) : bool :=
  String.prefix needle hay ||
  match hay with
  | EmptyString => false
  | String _ rest => str_contains needle rest
  end.

Definition hex_digit (n : nat) : ascii :=
  nth n (list_ascii_of_string "0123456789abcdef") "0"%char.

Definition printable (c : ascii) : bool :=
  let n := nat_of_ascii c in
  ((32 <=? n) && (n <? 127) || (161 <=? n) && negb (n =? 173))%nat.

(** [repr(s)] for a string. *)
Definition repr_char (quote c : ascii) : string :=
  if Ascii.eqb c quote then String "\" (String c "")
  else if Ascii.eqb c "\" then "\\"
  else if Ascii.eqb c "010" then "\n"
  else if Ascii.eqb c "013" then "\r"
  else if Ascii.eqb c "009" then "\t"
  else if printable c then String c ""
  else let n := nat_of_ascii c in
       String "\" (String "x" (String (hex_digit (n / 16)) (String (hex_digit (n mod 16)) ""))).

Definition has_char (c : ascii) (s : string) : bool :=
  existsb (Ascii.eqb c) (list_ascii_of_string s).

Definition repr_str (s : string) : string :=
  let quote := if has_char "'" s && negb (has_char "034" s) then "034"%char else "'"%char in
  String quote (concat "" (map (repr_char quote) (list_ascii_of_string s)))
  ++ String quote "".

(** [repr(v)] and [str(v)]. *)
Fixpoint py_repr (v : value) : string :=
  match v with
  | VNone => "None"
  | VBool true => "True"
  | VBool false => "False"
  | VInt z => pretty z
  | VStr s => repr_str s
  | VList _ items => "[" ++ concat ", " (map py_repr items) ++ "]"
  end.

Definition py_str (v : value) : string :=
  match v with
  | VStr s => s
  | _ => py_repr v
  end.

(** [s.splitlines()]. *)
Definition line_boundary (c : ascii) : bool :=
  let n := nat_of_ascii c in
  ((n =? 10) || (n =? 11) || (n =? 12) || (n =? 13) ||
   (n =? 28) || (n =? 29) || (n =? 30) || (n =? 133))%nat.

Fixpoint splitlines_from (cur : string) (s : string) : list string :=
  match s with
  | EmptyString => if String.eqb cur "" then [] else [cur]
  | String c rest =>
      if line_boundary c then
        match c, rest with
        | "013"%char, String "010" rest' => cur :: splitlines_from "" rest'
        | _, _ => cur :: splitlines_from "" rest
        end
      else splitlines_from (cur ++ String c "") rest
  end.

Definition splitlines (s : string) : list string := splitlines_from "" s.

(** [s.replace(old, new)]. *)
Fixpoint replace_from (old new : string) (skip : nat) (s : string) : string :=
  match s with
  | EmptyString => ""
  | String c rest =>
      match skip with
      | S k => replace_from old new k rest
      | O =>
          if String.prefix old s
          then new ++ replace_from old new (String.length old - 1) rest
          else String c (replace_from old new O rest)
      end
  end.

Definition replace (s old new : string) : string :=
  match old with
  | EmptyString =>
      new ++ concat "" (map (λ c, String c new) (list_ascii_of_string s))
  | _ => replace_from old new O s
  end.

(** *** Lists *)

(** [for x in v]: the items of a list, the characters of a string. *)
Definition iterate (v : value) : option (list value) :=
  match v with
  | VList _ items => Some items
  | VStr s => Some (map (λ c, VStr (String c "")) (list_ascii_of_string s))
  | _ => None
  end.

(** [v[0]]. *)
Definition first_item (v : value) : exn + value :=
  match v with
  | VList _ (x :: _) => inr x
  | VList _ [] => inl IndexError
  | VStr (String c _) => inr (VStr (String c ""))
  | VStr EmptyString => inl IndexError
  | _ => inl TypeError
  end.

(** The effect of [obj += extra] on a reference [v], where [obj] is the
    list object [target]: every alias of the object sees the new items. *)
Fixpoint extend_at (target : ident) (extra : list value) (v : value) : value :=
  match v with
  | VList id items =>
      let items' := map (extend_at target extra) items in
      if ident_eqb id target then VList id (items' ++ extra) else VList id items'
  | _ => v
  end.

(** All list objects reachable from a value, each with its contents. *)
Fixpoint objects (v : value) : list (ident * list value) :=
  match v with
  | VList id items => (id, items) :: flat_map objects items
  | _ => []
  end.

End Py.

(** ** Results of running module code *)

(** What a run of module code ends in: a value, a call of
    [exit_with_error], a call of [sys.exit], or an uncaught exception. *)
Inductive outcome (A : Type) : Type :=
  | Ret (a : A)
  | Fatal (msg : string)
  | Exited (status : Z)
  | Raised (e : Py.exn).

Arguments Ret {A} a.
Arguments Fatal {A} msg.
Arguments Exited {A} status.
Arguments Raised {A} e.

Definition bind {A B : Type} (m : outcome A) (k : A → outcome B) : outcome B :=
  match m with
  | Ret a => k a
  | Fatal msg => Fatal msg
  | Exited n => Exited n
  | Raised e => Raised e
  end.

Notation "x <- c ;; k" := (bind c (λ x, k))
  (at level 100, c at next level, right associativity).

(** Modelled from the spec: [utils.exit_with_error] is not part
    of the module.  It reports the formatted message on diagnostic output and
    terminates the process with a non-zero status. *)
Definition exit_with_error {A : Type} (msg : string) : outcome A := Fatal msg.

(** The status the process terminates with, when it terminates. *)
Definition exit_status {A : Type} (o : outcome A) : option Z :=
  match o with
  | Ret _ => None
  | Fatal _ => Some 1
  | Exited n => Some n
  | Raised _ => Some 1
  end.

Definition is_ret {A : Type} (o : outcome A) : bool :=
  match o with
  | Ret _ => true
  | _ => false
  end.

(** ** The surroundings of the module *)

(** What the process can observe and change outside itself.  [files] maps
    the path of each existing file to its text; directories and access
    rights other than the writability of the root are not modelled.
    [clock] is the time of day, which the module never reads and a
    configuration text may. *)
Record world : Type := {
  environ : gmap string string;
  files : gmap string string;
  root_writable : bool;                   (* os.access(__rootpath__, os.W_OK) *)
  clock : Z;                              (* time.time() *)
}.

(** How [exec(config_text, config)] ends: with the bindings it left in
    [config], with an [Exception] (shown as [str(e)]), or with [sys.exit],
    whose [SystemExit] is no [Exception]. *)
Inductive evaluated : Type :=
  | Bound (config : gmap string Py.value)
  | Failed (error : string)
  | Quit (status : Z).

(** The run of [exec]: how it ends, and the world and [sys.argv] it
    leaves. *)
Record evaluation : Type := {
  ev_result : evaluated;
  ev_world : world;
  ev_argv : list string;
}.

(** Functions the module imports: [os.path], [utils] and the evaluation of
    the configuration text by [exec]. *)
Record platform : Type := {
  rootpath : string;                      (* utils.__rootpath__ *)
  path_from_root : list string → string;  (* utils.path_from_root, by path elements *)
  path_join : string → string → string;   (* os.path.join *)
  (* os.path.expanduser, given os.environ.get('HOME'): without HOME the
     home directory comes from the password database *)
  expanduser : option string → string → string;
  dirname : string → string;              (* os.path.dirname *)
  (* utils.which: the executable of that name on the search path *)
  which : world → string → option string;
  (* exec(text, config) in a world and with a sys.argv *)
  py_exec : world → list string → string → evaluation;
}.

(** [os.environ.get('HOME')]. *)
Definition home (w : world) : option string := environ w !! "HOME".

Definition getenv (w : world) (name : string) : Py.value :=
  match environ w !! name with
  | Some s => Py.VStr s
  | None => Py.VNone
  end.

Definition path_exists (w : world) (path : string) : bool :=
  bool_decide (is_Some (files w !! path)).

(** Modelled from the spec: [utils.read_file] and [utils.write_file] are not
    part of the module.  The first gives the full text of a file and raises
    when there is none; the second makes the file with the given text. *)
Definition read_file (w : world) (path : string) : outcome string :=
  match files w !! path with
  | Some text => Ret text
  | None => Raised Py.FileNotFoundError
  end.

Definition write_file (path text : string) (w : world) : world :=
  {| environ := environ w; files := <[path := text]> (files w);
     root_writable := root_writable w; clock := clock w |}.

Definition set_environ (name val : string) (w : world) : world :=
  {| environ := <[name := val]> (environ w); files := files w;
     root_writable := root_writable w; clock := clock w |}.

(** ** Module state *)

Import Py.

(** The module globals, and the identity the next new list object gets. *)
Record state : Type := {
  globals : gmap string value;
  next_id : nat;
}.

(** Reading a global.  Every name the module reads is bound by the
    module-level assignments; a name that is not bound reads as [None]. *)
Definition getg (st : state) (key : string) : value := globals st !!! key.

Definition setg (key : string) (v : value) (st : state) : state :=
  {| globals := <[key := v]> (globals st); next_id := next_id st |}.

(** A list display [[x, y, ...]] creates a new object. *)
Definition alloc (items : list value) (st : state) : value * state :=
  (VList (Mod (next_id st)) items,
   {| globals := globals st; next_id := S (next_id st) |}).

(** Lines 19-37: the module-level defaults. *)
Definition initial_globals (root : string) (wasm_engines : value) : gmap string value :=
  <["EMSCRIPTEN_ROOT" := VStr root]> (
  <["NODE_JS" := VNone]> (
  <["BINARYEN_ROOT" := VNone]> (
  <["SPIDERMONKEY_ENGINE" := VNone]> (
  <["V8_ENGINE" := VNone]> (
  <["LLVM_ROOT" := VNone]> (
  <["LLVM_ADD_VERSION" := VNone]> (
  <["CLANG_ADD_VERSION" := VNone]> (
  <["CLOSURE_COMPILER" := VNone]> (
  <["JAVA" := VNone]> (
  <["JS_ENGINE" := VNone]> (
  <["JS_ENGINES" := VNone]> (
  <["WASMER" := VNone]> (
  <["WASMTIME" := VNone]> (
  <["WASM_ENGINES" := wasm_engines]> (
  <["FROZEN_CACHE" := VNone]> (
  <["CACHE" := VNone]> (
  <["PORTS" := VNone]> (
  <["COMPILER_WRAPPER" := VNone]> ∅)))))))))))))))))).

(** The state after the module-level assignments: the empty list of
    [WASM_ENGINES] is the first object the module makes. *)
Definition initial_state (root : string) : state :=
  {| globals := initial_globals root (VList (Mod 0) []); next_id := 1 |}.

(** ** Lines 40-55 *)

Definition listify (x : value) (st : state) : value * state :=
  match x with
  | VNone => (x, st)
  | VList _ _ => (x, st)
  | _ => alloc [x] st
  end.

(** [[listify(engine) for engine in items]], before the result list is made. *)
Fixpoint listify_each (items : list value) (st : state) : list value * state :=
  match items with
  | [] => ([], st)
  | x :: rest =>
      let '(x', st) := listify x st in
      let '(rest', st) := listify_each rest st in
      (x' :: rest', st)
  end.

(** Returns the function's result; the bare [return] gives [None]. *)
Definition fix_js_engine (old new : value) (st : state) : outcome (value * state) :=
  match old with
  | VNone => Ret (VNone, st)
  | _ =>
      match iterate (getg st "JS_ENGINES") with
      | None => Raised TypeError
      | Some items =>
          let '(engines, st) :=
            alloc (map (λ x, if py_eq x old then new else x) items) st in
          Ret (new, setg "JS_ENGINES" engines st)
      end
  end.

Definition root_is_writable (w : world) : bool := root_writable w.

(** [target += extra] with a list on the right: a list on the left is
    extended in place, anything else has no such addition. *)
Definition iadd_list (target : value) (extra : list value) (st : state) : outcome state :=
  match target with
  | VList id _ =>
      Ret {| globals := extend_at id extra <$> globals st; next_id := next_id st |}
  | _ => Raised TypeError
  end.

Definition newline : string := String "010" "".

(** How a run of module code ends, and the process state it leaves. *)
Record result : Type := {
  res_outcome : outcome state;
  res_world : world;
  res_argv : list string;
}.

Definition stopped (o : outcome state) (w : world) (argv : list string) : result :=
  {| res_outcome := o; res_world := w; res_argv := argv |}.

Section config.

Context (P : platform).

(** ** Lines 58-99: [normalize_config_settings], block by block *)

(** Lines 63-66. *)
Definition derive_js_engines (st : state) : outcome state :=
  let st :=
    if negb (truthy (getg st "JS_ENGINES"))
    then let '(engines, st) := alloc [getg st "NODE_JS"] st in
         setg "JS_ENGINES" engines st
    else st in
  if negb (truthy (getg st "JS_ENGINE"))
  then match first_item (getg st "JS_ENGINES") with
       | inr engine => Ret (setg "JS_ENGINE" engine st)
       | inl e => Raised e
       end
  else Ret st.

(** Lines 69-73.  [new_spidermonkey] is a second name of the object that
    [SPIDERMONKEY_ENGINE] names, so after [+=] both show the new item. *)
Definition tweak_spidermonkey (st : state) : outcome state :=
  if truthy (getg st "SPIDERMONKEY_ENGINE") then
    st <- (if negb (str_contains "-w" (py_str (getg st "SPIDERMONKEY_ENGINE")))
           then iadd_list (getg st "SPIDERMONKEY_ENGINE") [VStr "-w"] st
           else Ret st) ;;
    let new_spidermonkey := getg st "SPIDERMONKEY_ENGINE" in
    r <- fix_js_engine (getg st "SPIDERMONKEY_ENGINE") new_spidermonkey st ;;
    Ret (setg "SPIDERMONKEY_ENGINE" r.1 r.2)
  else Ret st.

(** [KEY = fix_js_engine(KEY, listify(KEY))], lines 74-76. *)
Definition fix_listified (key : string) (st : state) : outcome state :=
  let old := getg st key in
  let '(new, st) := listify old st in
  r <- fix_js_engine old new st ;;
  Ret (setg key r.1 r.2).

(** [KEY = [listify(engine) for engine in KEY]], lines 77-78. *)
Definition listify_entries (key : string) (st : state) : outcome state :=
  match iterate (getg st key) with
  | None => Raised TypeError
  | Some items =>
      let '(items, st) := listify_each items st in
      let '(engines, st) := alloc items st in
      Ret (setg key engines st)
  end.

(** Lines 74-79. *)
Definition listify_engines (st : state) : outcome state :=
  st <- fix_listified "NODE_JS" st ;;
  st <- fix_listified "V8_ENGINE" st ;;
  st <- fix_listified "JS_ENGINE" st ;;
  st <- listify_entries "JS_ENGINES" st ;;
  st <- listify_entries "WASM_ENGINES" st ;;
  let '(closure, st) := listify (getg st "CLOSURE_COMPILER") st in
  Ret (setg "CLOSURE_COMPILER" closure st).

(** Lines 80-92.  [os.path.join] takes strings only. *)
Definition derive_cache_and_ports (w : world) (st : state) : outcome state :=
  let st :=
    if negb (truthy (getg st "CACHE")) then
      if truthy (getg st "FROZEN_CACHE") || root_is_writable w
      then setg "CACHE" (VStr (path_from_root P ["cache"])) st
      else setg "CACHE"
             (VStr (expanduser P (home w) (path_join P "~" ".emscripten_cache"))) st
    else st in
  if negb (truthy (getg st "PORTS")) then
    match getg st "CACHE" with
    | VStr cache => Ret (setg "PORTS" (VStr (path_join P cache "ports")) st)
    | _ => Raised TypeError
    end
  else Ret st.

(** Lines 95-99. *)
Definition derive_version_suffix (w : world) (key : string) (st : state) : state :=
  match getg st key with
  | VNone => setg key (getenv w key) st
  | _ => st
  end.

Definition normalize_config_settings (w : world) (st : state) : outcome state :=
  st <- derive_js_engines st ;;
  st <- tweak_spidermonkey st ;;
  st <- listify_engines st ;;
  st <- derive_cache_and_ports w st ;;
  let st := derive_version_suffix w "LLVM_ADD_VERSION" st in
  let st := derive_version_suffix w "CLANG_ADD_VERSION" st in
  Ret st.

(** ** Lines 102-169: [parse_config_file] *)

Definition CONFIG_KEYS : list string :=
  [ "NODE_JS"; "BINARYEN_ROOT"; "SPIDERMONKEY_ENGINE"; "V8_ENGINE"; "LLVM_ROOT";
    "LLVM_ADD_VERSION"; "CLANG_ADD_VERSION"; "CLOSURE_COMPILER"; "JAVA";
    "JS_ENGINE"; "JS_ENGINES"; "WASMER"; "WASMTIME"; "WASM_ENGINES";
    "FROZEN_CACHE"; "CACHE"; "PORTS"; "COMPILER_WRAPPER" ].

(** Lines 137-144: one turn of the loop over [CONFIG_KEYS]. *)
Definition propagate_key (w : world) (config : gmap string value)
    (st : state) (key : string) : state :=
  let env_var := "EM_" ++ key in
  match environ w !! env_var with
  | Some env_value =>
      setg key (if String.eqb env_value "" then VNone else VStr env_value) st
  | None =>
      match config !! key with
      | Some v => setg key v st
      | None => st
      end
  end.

Definition propagate_settings (w : world) (config : gmap string value)
    (st : state) : state :=
  foldl (propagate_key w config) st CONFIG_KEYS.

Definition MANDATORY_KEYS : list string := ["LLVM_ROOT"; "NODE_JS"; "BINARYEN_ROOT"].

(** Lines 160-164. *)
Fixpoint check_mandatory (em_config : string) (config : gmap string value)
    (st : state) (keys : list string) : outcome unit :=
  match keys with
  | [] => Ret tt
  | key :: rest =>
      match config !! key with
      | None => exit_with_error (key ++ " is not defined in " ++ em_config)
      | Some _ =>
          if negb (truthy (getg st key))
          then exit_with_error (key ++ " is set to empty value in " ++ em_config)
          else check_mandatory em_config config st rest
      end
  end.

(** Lines 114-169, once the text has been evaluated to [config].  The loop
    over the legacy variables (lines 149-157) only writes to the debug log,
    which is not modelled. *)
Definition apply_config (w : world) (em_config : string)
    (config : gmap string value) (st : state) : outcome state :=
  let st := propagate_settings w config st in
  _ <- check_mandatory em_config config st MANDATORY_KEYS ;;
  if negb (truthy (getg st "NODE_JS"))
  then exit_with_error ("NODE_JS is not defined in " ++ em_config)
  else normalize_config_settings w st.

(** The text is evaluated in the world and with the [sys.argv] of the
    moment; lines 114-169 run in the world the evaluation leaves. *)
Definition parse_config_file (w : world) (argv : list string) (em_config : string)
    (st : state) : result :=
  match read_file w em_config with
  | Ret config_text =>
      let ev := py_exec P w argv config_text in
      stopped
        match ev_result ev with
        | Failed e =>
            exit_with_error ("Error in evaluating config file (" ++ em_config ++ "): "
                             ++ e ++ ", text: " ++ config_text)
        | Quit status => Exited status
        | Bound config => apply_config (ev_world ev) em_config config st
        end
        (ev_world ev) (ev_argv ev)
  | Fatal msg => stopped (Fatal msg) w argv
  | Exited n => stopped (Exited n) w argv
  | Raised e => stopped (Raised e) w argv
  end.

(** ** Lines 172-205: [generate_config] *)

(** [a or b] on the results of [which]: an absent or empty [a] gives [b]. *)
Definition or_else (a b : option string) : option string :=
  match a with
  | Some s => if String.eqb s "" then b else a
  | None => b
  end.

Definition or_default (a : option string) (b : string) : string :=
  default b (or_else a (Some b)).

(** Lines 180-188: the text to write, from the text of the template. *)
Definition fill_template (w : world) (config_data : string) : string :=
  let config_data := drop 3 (splitlines config_data) in
  let config_data := String.concat newline config_data in
  let config_data :=
    replace config_data "'{{{ EMSCRIPTEN_ROOT }}}'" (repr_str (rootpath P)) in
  let llvm_root := dirname P (or_default (which P w "llvm-dis") "/usr/bin/llvm-dis") in
  let config_data := replace config_data "'{{{ LLVM_ROOT }}}'" (repr_str llvm_root) in
  let node := or_default (or_else (which P w "node") (which P w "nodejs")) "node" in
  replace config_data "'{{{ NODE }}}'" (repr_str node).

(** The summary printed on diagnostic output (lines 193-205) is not
    modelled. *)
Definition generate_config (w : world) (path : string) : outcome world :=
  if path_exists w path
  then exit_with_error ("config file already exists: `" ++ path ++ "`")
  else
    config_data <- read_file w (path_from_root P ["tools/config_template.py"]) ;;
    Ret (write_file path (fill_template w config_data) w).

(** ** Lines 221-282: the module body *)

Definition embedded_config : string := path_from_root P [".emscripten"].
Definition emsdk_root : string := dirname P (dirname P (path_from_root P [])).
Definition emsdk_embedded_config : string := path_join P emsdk_root ".emscripten".
Definition user_home_config (w : world) : string :=
  expanduser P (home w) "~/.emscripten".

(** [l.index(x)], when [x in l]. *)
Fixpoint index_of (x : string) (l : list string) : option nat :=
  match l with
  | [] => None
  | y :: rest => if String.eqb y x then Some O else S <$> index_of x rest
  end.

(** Lines 238-258: the value of [EM_CONFIG] and what is left of [sys.argv]. *)
Definition locate_config (w : world) (argv : list string) : outcome (string * list string) :=
  match index_of "--em-config" argv with
  | Some i =>
      if (List.length argv <=? i + 1)%nat
      then exit_with_error "--em-config must be followed by a filename"
      else match argv !! (i + 1)%nat with
           | Some em_config => Ret (em_config, delete i (delete (i + 1)%nat argv))
           | None => Raised IndexError
           end
  | None =>
      match environ w !! "EM_CONFIG" with
      | Some em_config => Ret (em_config, argv)
      | None =>
          if path_exists w embedded_config then Ret (embedded_config, argv)
          else if path_exists w emsdk_embedded_config then Ret (emsdk_embedded_config, argv)
          else if path_exists w (user_home_config w) then Ret (user_home_config w, argv)
          else if root_is_writable w then Ret (embedded_config, argv)
          else Ret (user_home_config w, argv)
      end
  end.

(** Lines 238-282. *)
Definition load_module (w : world) (argv : list string) : result :=
  match locate_config w argv with
  | Fatal msg => stopped (Fatal msg) w argv
  | Exited n => stopped (Exited n) w argv
  | Raised e => stopped (Raised e) w argv
  | Ret (em_config, argv) =>
      if str_contains newline em_config
      then stopped (exit_with_error
             "Inline EM_CONFIG data no longer supported.  Please use a config file.")
             w argv
      else
        let em_config := expanduser P (home w) em_config in
        if bool_decide ("--generate-config" ∈ argv) then
          match generate_config w em_config with
          | Ret w' => stopped (Exited 0) w' argv
          | Fatal msg => stopped (Fatal msg) w argv
          | Exited n => stopped (Exited n) w argv
          | Raised e => stopped (Raised e) w argv
          end
        else if negb (path_exists w em_config)
        then stopped (exit_with_error
               ("config file not found: " ++ em_config ++
                ".  Please create one by hand or run `emcc --generate-config`"))
               w argv
        else
          let w := set_environ "EM_CONFIG" em_config w in
          parse_config_file w argv em_config (initial_state (rootpath P))
  end.


End config.

(** ** Auxiliary definitions for the statements *)

(** The in-place update reaches a global only through the object that
    [SPIDERMONKEY_ENGINE] names. *)
Definition flagged_view (sm : value) (v : value) : value :=
  match sm with
  | VList id _ =>
      if truthy sm && negb (str_contains "-w" (py_str sm))
      then extend_at id [VStr "-w"] v else v
  | _ => v
  end.

(** The globals that lines 74-79 assign. *)
Definition ENGINE_KEYS : list string :=
  ["NODE_JS"; "V8_ENGINE"; "JS_ENGINE"; "JS_ENGINES"; "WASM_ENGINES"; "CLOSURE_COMPILER"].

(** The value a key has after its turn of the loop, if it had [current]
    before. *)
Definition precedence (w : world) (config : gmap string value)
    (current : value) (key : string) : value :=
  match environ w !! ("EM_" ++ key) with
  | Some s => if String.eqb s "" then VNone else VStr s
  | None => default current (config !! key)
  end.

(** The keys that normalization can fill in when they are absent. *)
Definition DERIVED_KEYS : list string :=
  ["JS_ENGINES"; "JS_ENGINE"; "CACHE"; "PORTS"; "LLVM_ADD_VERSION"; "CLANG_ADD_VERSION"].

(** [JS_ENGINES] as lines 63-64 leave it. *)
Definition seeded_engines (st : state) : value :=
  if truthy (getg st "JS_ENGINES") then getg st "JS_ENGINES"
  else VList (Mod (next_id st)) [getg st "NODE_JS"].

(** [x] is what [listify(v)] returns: [v] itself when that is [None] or a
    list, a new list around [v] otherwise. *)
Definition listified (v x : value) : Prop :=
  match v with
  | VNone | VList _ _ => x = v
  | _ => ∃ id, x = VList id [v]
  end.

(** ** A concrete installation, for the examples *)

Module Sample.

Definition root : string := "/emsdk/upstream/emscripten".

Definition join (a b : string) : string := a ++ "/" ++ b.

(** The home directory is [HOME], or the one of the password database. *)
Definition expand (home : option string) (p : string) : string :=
  match p with
  | String "~" rest => default "/home/dev" home ++ rest
  | _ => p
  end.

Definition parent (p : string) : string :=
  if String.eqb p root then "/emsdk/upstream"
  else if String.eqb p "/emsdk/upstream" then "/emsdk"
  else "/usr/bin".

Definition mandatory_text : string :=
  "LLVM_ROOT = '/usr/bin'; NODE_JS = 'node'; BINARYEN_ROOT = '/opt/binaryen'".

Definition mandatory_config : gmap string value :=
  <["LLVM_ROOT" := VStr "/usr/bin"]> (
  <["NODE_JS" := VStr "node"]> (
  <["BINARYEN_ROOT" := VStr "/opt/binaryen"]> ∅)).

(** The same with an explicit cache directory. *)
Definition cache_text : string := mandatory_text ++ "; CACHE = '/x'".

Definition cache_config : gmap string value :=
  <["CACHE" := VStr "/x"]> mandatory_config.

(** Spidermonkey without the flag, and an engines list that spells the
    same command out again. *)
Definition spidermonkey_text : string :=
  mandatory_text ++
  "; SPIDERMONKEY_ENGINE = ['js']; JS_ENGINES = [['node'], ['js']]".

Definition spidermonkey_config : gmap string value :=
  <["SPIDERMONKEY_ENGINE" := VList (Cfg 0) [VStr "js"]]> (
  <["JS_ENGINES" := VList (Cfg 3) [VList (Cfg 1) [VStr "node"];
                                   VList (Cfg 2) [VStr "js"]]]> mandatory_config).

(** Spidermonkey given as one string that already has the flag. *)
Definition flagged_text : string :=
  mandatory_text ++ "; SPIDERMONKEY_ENGINE = 'js -w'".

Definition flagged_config : gmap string value :=
  <["SPIDERMONKEY_ENGINE" := VStr "js -w"]> mandatory_config.

(** Node given as a command with an argument. *)
Definition node_list_text : string :=
  "LLVM_ROOT = '/usr/bin'; NODE_JS = ['node', '--stack-size=1024']; BINARYEN_ROOT = '/opt/binaryen'".

Definition node_list_config : gmap string value :=
  <["LLVM_ROOT" := VStr "/usr/bin"]> (
  <["NODE_JS" := VList (Cfg 0) [VStr "node"; VStr "--stack-size=1024"]]> (
  <["BINARYEN_ROOT" := VStr "/opt/binaryen"]> ∅)).

(** The active engine chosen by hand. *)
Definition d8_text : string := mandatory_text ++ "; JS_ENGINE = 'd8'".

Definition d8_config : gmap string value :=
  <["JS_ENGINE" := VStr "d8"]> mandatory_config.

(** Spidermonkey with an argument that has [-w] inside it. *)
Definition wasm_text : string :=
  mandatory_text ++ "; SPIDERMONKEY_ENGINE = ['js', '--wasm-compiler=baseline']".

Definition wasm_config : gmap string value :=
  <["SPIDERMONKEY_ENGINE" :=
      VList (Cfg 0) [VStr "js"; VStr "--wasm-compiler=baseline"]]> mandatory_config.

(** Spidermonkey given as one string, without the flag. *)
Definition bare_text : string := mandatory_text ++ "; SPIDERMONKEY_ENGINE = 'js'".

Definition bare_config : gmap string value :=
  <["SPIDERMONKEY_ENGINE" := VStr "js"]> mandatory_config.

(** No [BINARYEN_ROOT]. *)
Definition incomplete_text : string := "LLVM_ROOT = '/usr/bin'; NODE_JS = 'node'".

Definition incomplete_config : gmap string value :=
  <["LLVM_ROOT" := VStr "/usr/bin"]> (<["NODE_JS" := VStr "node"]> ∅).

(** A cache directory of its own for every run. *)
Definition stamped_text : string :=
  mandatory_text ++ "; CACHE = '/tmp/emscripten-%d' % __import__('time').time()".

Definition stamped_config (now : Z) : gmap string value :=
  <["CACHE" := VStr ("/tmp/emscripten-" ++ pretty now)]> mandatory_config.

(** The texts above that only bind names. *)
Definition bindings (text : string) : evaluated :=
  if String.eqb text mandatory_text then Bound mandatory_config
  else if String.eqb text cache_text then Bound cache_config
  else if String.eqb text spidermonkey_text then Bound spidermonkey_config
  else if String.eqb text flagged_text then Bound flagged_config
  else if String.eqb text node_list_text then Bound node_list_config
  else if String.eqb text incomplete_text then Bound incomplete_config
  else if String.eqb text d8_text then Bound d8_config
  else if String.eqb text wasm_text then Bound wasm_config
  else if String.eqb text bare_text then Bound bare_config
  else Failed "invalid syntax (<string>, line 1)".

Definition exec (w : world) (argv : list string) (text : string) : evaluation :=
  {| ev_result := if String.eqb text stamped_text
                  then Bound (stamped_config (clock w))
                  else bindings text;
     ev_world := w;
     ev_argv := argv |}.

Definition install : platform :=
  {| rootpath := root;
     path_from_root := foldl join root;
     path_join := join;
     expanduser := expand;
     dirname := parent;
     which := λ _ _, None;
     py_exec := exec |}.

Definition config_path : string := "/emsdk/upstream/emscripten/.emscripten".

(** A world whose only file is the configuration next to the root. *)
Definition world_of (env : gmap string string) (text : string) : world :=
  {| environ := env; files := {[ config_path := text ]}; root_writable := true;
     clock := 1700000000 |}.


Definition template_path : string :=
  "/emsdk/upstream/emscripten/tools/config_template.py".

Definition template : string :=
  String.concat newline
    [ "# This file will be edited (the {{{ }}} things), and then ~/.emscripten";
      "# created with the result, if ~/.emscripten doesn't exist.";
      "";
      "EMSCRIPTEN_ROOT = '{{{ EMSCRIPTEN_ROOT }}}' # directory";
      "LLVM_ROOT = '{{{ LLVM_ROOT }}}' # directory";
      "NODE_JS = '{{{ NODE }}}' # executable";
      "" ].

(** A new installation: the template and no configuration yet. *)
Definition fresh_world : world :=
  {| environ := ∅; files := {[ template_path := template ]}; root_writable := true;
     clock := 1700000000 |}.

(** An installation that has lost its template. *)
Definition empty_world : world :=
  {| environ := ∅; files := ∅; root_writable := true; clock := 1700000000 |}.

(** Configuration text given in [EM_CONFIG] itself, as was once allowed. *)
Definition inline_config : string :=
  "LLVM_ROOT = '/usr/bin'" ++ newline ++ "NODE_JS = 'node'".


End Sample.

(** The list objects of the evaluated bindings.  In bindings that a run of
    [exec] leaves, an object has one content wherever it is referenced. *)
Definition config_objects (config : gmap string value) : list (ident * list value) :=
  flat_map objects ((map_to_list config).*2).

Definition same_items (xs ys : list value) : bool :=
  value_beq (VList (Cfg 0) xs) (VList (Cfg 0) ys).

Definition consistent (config : gmap string value) : bool :=
  forallb (λ o1,
    forallb (λ o2, implb (ident_eqb o1.1 o2.1) (same_items o1.2 o2.2))
            (config_objects config))
          (config_objects config).

(** The state a successful run ends in (the initial state otherwise). *)
Definition state_of (o : outcome state) : state :=
  match o with
  | Ret st => st
  | _ => initial_state ""
  end.

(** Every list object of the evaluated bindings was made by [exec]. *)
Definition made_by_exec (config : gmap string value) : bool :=
  forallb (λ o, match o.1 with Cfg _ => true | Mod _ => false end)
          (config_objects config).

(** A run of the module from the command line [argv] in the world [w]:
    whether it resolves a configuration, and the final value of a key. *)
Definition resolves (P : platform) (w : world) (argv : list string) : bool :=
  is_ret (res_outcome (load_module P w argv)).

Definition final_value (P : platform) (w : world) (argv : list string)
    (key : string) : value :=
  getg (state_of (res_outcome (load_module P w argv))) key.

(** ** What a run of the module reads from the world *)

(** The environment variables read: the configuration path, the home
    directory (by [os.path.expanduser]), the two version suffixes, and one
    override per recognized key. *)
Definition CONSULTED_VARS : list string :=
  "EM_CONFIG" :: "HOME" :: "LLVM_ADD_VERSION" :: "CLANG_ADD_VERSION"
  :: (String.append "EM_" <$> CONFIG_KEYS).

(** The files looked at: the three candidates, the template of the
    generator, and the located configuration. *)
Definition consulted_paths (P : platform) (w : world) (argv : list string) : list string :=
  [embedded_config P; emsdk_embedded_config P; user_home_config P w;
   path_from_root P ["tools/config_template.py"]]
  ++ match locate_config P w argv with
     | Ret (em_config, _) => [expanduser P (home w) em_config]
     | _ => []
     end.

(** The text an import from [argv] in the world [w] evaluates, when it
    gets that far: the text of the file at the located path. *)
Definition config_source (P : platform) (w : world) (argv : list string) : option string :=
  match locate_config P w argv with
  | Ret (em_config, _) => files w !! expanduser P (home w) em_config
  | _ => None
  end.

(** A configuration text without side effects: its evaluation leaves the
    world and [sys.argv] as they are. *)
Definition quiet_source (P : platform) (text : string) : Prop :=
  ∀ w argv, ev_world (py_exec P w argv text) = w ∧ ev_argv (py_exec P w argv text) = argv.

(** A configuration text that only binds names: its evaluation has no side
    effects, and ends the same way whatever the world and [sys.argv]. *)
Definition plain_source (P : platform) (text : string) : Prop :=
  quiet_source P text
  ∧ ∀ w1 argv1 w2 argv2,
      ev_result (py_exec P w1 argv1 text) = ev_result (py_exec P w2 argv2 text).

(** Two worlds that look the same to a run of the module from [argv]. *)
Definition same_view (P : platform) (argv : list string) (w1 w2 : world) : Prop :=
  root_writable w1 = root_writable w2
  ∧ (∀ name, name ∈ CONSULTED_VARS → environ w1 !! name = environ w2 !! name)
  ∧ (∀ path, path ∈ consulted_paths P w1 argv → files w1 !! path = files w2 !! path).

(** ** Auxiliary definitions for the further properties *)

Definition is_list (v : value) : bool :=
  match v with
  | VList _ _ => true
  | _ => false
  end.

Definition none_or_list (v : value) : bool :=
  match v with
  | VNone => true
  | VList _ _ => true
  | _ => false
  end.

(** The recognized keys that [normalize_config_settings] never assigns. *)
Definition PLAIN_KEYS : list string :=
  ["LLVM_ROOT"; "BINARYEN_ROOT"; "JAVA"; "WASMER"; "WASMTIME"; "FROZEN_CACHE";
   "COMPILER_WRAPPER"].

(** The engine keys that lines 74-76 and 79 pass through [listify]. *)
Definition LISTIFIED_KEYS : list string :=
  ["NODE_JS"; "V8_ENGINE"; "JS_ENGINE"; "CLOSURE_COMPILER"].

(** The string of one character: what iterating over a string yields. *)
Definition one_char (c : ascii) : value := VStr (String c "").

(** An engines entry that stands for the character [c]: the character
    itself, or the one-item list around it. *)
Definition char_entry (c : ascii) (x : value) : Prop :=
  x = one_char c ∨ ∃ id, x = VList id [one_char c].

Definition wrapped_char (c : ascii) (x : value) : Prop :=
  ∃ id, x = VList id [one_char c].

(** [v] iterates to entries that stand for the characters [cs]. *)
Definition spells (cs : list ascii) (v : value) : Prop :=
  ∃ items, iterate v = Some items ∧ Forall2 char_entry cs items.

(** * Properties *)

(** Induction principle that reaches the items of a list. *)
Lemma value_ind_items (P : Py.value → Prop) :
  P VNone →
  (∀ b, P (VBool b)) →
  (∀ z, P (VInt z)) →
  (∀ s, P (VStr s)) →
  (∀ id items, Forall P items → P (VList id items)) →
  ∀ v, P v.
Proof.
  intros HN HB HI HS HL.
  fix IH 1. intros [ | b | z | s | id items].
  - exact HN.
  - apply HB.
  - apply HI.
  - apply HS.
  - apply HL. induction items as [ | x xs IHxs].
    + constructor.
    + constructor; [apply IH | exact IHxs].
Qed.

(** ** The monad *)

Lemma bind_ret_inv {A B : Type} (m : outcome A) (k : A → outcome B) (b : B) :
  bind m k = Ret b → ∃ a, m = Ret a ∧ k a = Ret b.
Proof. destruct m as [a | msg | n | e]; simpl; intros H; try discriminate. eauto. Qed.

Lemma is_ret_state_of (o : outcome state) : is_ret o = true → o = Ret (state_of o).
Proof. by destruct o. Qed.

(** Splits a successful sequence into its successful steps. *)
Ltac bind_inv H :=
  let a := fresh "st" in
  let H1 := fresh "Hstep" in
  apply bind_ret_inv in H as (a & H1 & H).

(** ** Reading and writing globals *)

Lemma getg_setg_eq key v st : getg (setg key v st) key = v.
Proof. unfold getg, setg; simpl. apply lookup_total_insert_eq. Qed.

Lemma getg_setg_ne key key' v st : key ≠ key' → getg (setg key v st) key' = getg st key'.
Proof. intros Hne. unfold getg, setg; simpl. by apply lookup_total_insert_ne. Qed.

Lemma globals_listify x st : globals (listify x st).2 = globals st.
Proof. by destruct x. Qed.

Lemma globals_listify_each items st : globals (listify_each items st).2 = globals st.
Proof.
  revert st. induction items as [ | x rest IH]; intros st; simpl; [done | ].
  destruct (listify x st) as [x' st1] eqn:Hx.
  destruct (listify_each rest st1) as [rest' st2] eqn:Hrest. simpl.
  pose proof (IH st1) as H1. rewrite Hrest in H1. simpl in H1. rewrite H1.
  pose proof (globals_listify x st) as H2. by rewrite Hx in H2.
Qed.

Lemma getg_listify x st key : getg (listify x st).2 key = getg st key.
Proof. unfold getg. by rewrite globals_listify. Qed.

Lemma getg_listify_each items st key : getg (listify_each items st).2 key = getg st key.
Proof. unfold getg. by rewrite globals_listify_each. Qed.

Lemma getg_extend target extra st key :
  globals st !!! key = getg st key →
  (extend_at target extra <$> globals st) !!! key = extend_at target extra (getg st key).
Proof.
  intros _. unfold getg. rewrite !lookup_total_alt, lookup_fmap.
  by destruct (globals st !! key).
Qed.

(** ** What each block of [normalize_config_settings] leaves alone *)

Lemma fix_js_engine_frame old new st r key :
  fix_js_engine old new st = Ret r → key ≠ "JS_ENGINES" →
  getg r.2 key = getg st key.
Proof.
  unfold fix_js_engine. intros H Hne.
  destruct old; try (by inversion H);
    (destruct (iterate (getg st "JS_ENGINES")); [ | discriminate]);
    inversion H; subst; simpl; by rewrite getg_setg_ne.
Qed.

Lemma fix_js_engine_result old new st r :
  fix_js_engine old new st = Ret r → r.1 = match old with VNone => VNone | _ => new end.
Proof.
  unfold fix_js_engine. intros H.
  destruct old; try (by inversion H);
    (destruct (iterate (getg st "JS_ENGINES")); [ | discriminate]);
    by inversion H.
Qed.

Lemma derive_js_engines_frame st st' key :
  derive_js_engines st = Ret st' → key ≠ "JS_ENGINES" → key ≠ "JS_ENGINE" →
  getg st' key = getg st key.
Proof.
  unfold derive_js_engines. intros H Hne1 Hne2.
  set (st1 := if negb (truthy (getg st "JS_ENGINES")) then _ else st) in H.
  assert (getg st1 key = getg st key) as Hst1.
  { subst st1. destruct (negb (truthy (getg st "JS_ENGINES"))); [ | done].
    simpl. by rewrite getg_setg_ne. }
  destruct (negb (truthy (getg st1 "JS_ENGINE"))).
  - destruct (first_item (getg st1 "JS_ENGINES")); [discriminate | ].
    inversion H; subst. by rewrite getg_setg_ne.
  - by inversion H; subst.
Qed.

Lemma tweak_spidermonkey_frame st st' key :
  tweak_spidermonkey st = Ret st' →
  key ≠ "JS_ENGINES" → key ≠ "SPIDERMONKEY_ENGINE" →
  getg st' key = flagged_view (getg st "SPIDERMONKEY_ENGINE") (getg st key).
Proof.
  unfold tweak_spidermonkey, flagged_view. intros H Hne1 Hne2.
  destruct (truthy (getg st "SPIDERMONKEY_ENGINE")) eqn:Htruthy; simpl.
  - bind_inv H. bind_inv H. inversion H; subst; clear H.
    rewrite getg_setg_ne by done.
    rewrite (fix_js_engine_frame _ _ _ _ _ Hstep0) by done.
    destruct (negb (str_contains "-w" (py_str (getg st "SPIDERMONKEY_ENGINE")))).
    + unfold iadd_list in Hstep.
      destruct (getg st "SPIDERMONKEY_ENGINE"); try discriminate.
      inversion Hstep; subst. unfold getg at 1; simpl. by apply getg_extend.
    + inversion Hstep; subst. by destruct (getg st0 "SPIDERMONKEY_ENGINE").
  - inversion H; subst. by destruct (getg st' "SPIDERMONKEY_ENGINE").
Qed.

Lemma fix_listified_frame key st st' key' :
  fix_listified key st = Ret st' → key' ≠ key → key' ≠ "JS_ENGINES" →
  getg st' key' = getg st key'.
Proof.
  unfold fix_listified. intros H Hne1 Hne2.
  destruct (listify (getg st key) st) as [new st1] eqn:Hl.
  bind_inv H. inversion H; subst; clear H.
  rewrite getg_setg_ne by done.
  rewrite (fix_js_engine_frame _ _ _ _ _ Hstep) by done.
  pose proof (getg_listify (getg st key) st key') as H. by rewrite Hl in H.
Qed.

Lemma fix_listified_result key st st' :
  fix_listified key st = Ret st' →
  getg st' key = (listify (getg st key) st).1.
Proof.
  unfold fix_listified. intros H.
  destruct (listify (getg st key) st) as [new st1] eqn:Hl.
  bind_inv H. inversion H; subst; clear H.
  rewrite getg_setg_eq, (fix_js_engine_result _ _ _ _ Hstep). simpl.
  destruct (getg st key); try done. by inversion Hl.
Qed.

Lemma listify_entries_frame key st st' key' :
  listify_entries key st = Ret st' → key' ≠ key → getg st' key' = getg st key'.
Proof.
  unfold listify_entries. intros H Hne.
  destruct (iterate (getg st key)) as [items | ]; [ | discriminate].
  destruct (listify_each items st) as [items' st1] eqn:Hl. simpl in H.
  inversion H; subst; clear H. rewrite getg_setg_ne by done. simpl.
  pose proof (getg_listify_each items st key') as H. by rewrite Hl in H.
Qed.

Lemma listify_engines_inv st st' :
  listify_engines st = Ret st' →
  ∃ s1 s2 s3 s4 s5,
    fix_listified "NODE_JS" st = Ret s1 ∧ fix_listified "V8_ENGINE" s1 = Ret s2 ∧
    fix_listified "JS_ENGINE" s2 = Ret s3 ∧ listify_entries "JS_ENGINES" s3 = Ret s4 ∧
    listify_entries "WASM_ENGINES" s4 = Ret s5 ∧
    st' = setg "CLOSURE_COMPILER" (listify (getg s5 "CLOSURE_COMPILER") s5).1
            (listify (getg s5 "CLOSURE_COMPILER") s5).2.
Proof.
  unfold listify_engines. intros H.
  apply bind_ret_inv in H as (s1 & H1 & H). apply bind_ret_inv in H as (s2 & H2 & H).
  apply bind_ret_inv in H as (s3 & H3 & H). apply bind_ret_inv in H as (s4 & H4 & H).
  apply bind_ret_inv in H as (s5 & H5 & H).
  exists s1, s2, s3, s4, s5. repeat split; try done.
  destruct (listify (getg s5 "CLOSURE_COMPILER") s5). by inversion H.
Qed.

Lemma listify_engines_frame st st' key :
  listify_engines st = Ret st' → key ∉ ENGINE_KEYS → getg st' key = getg st key.
Proof.
  unfold ENGINE_KEYS. intros H Hnot.
  rewrite !not_elem_of_cons in Hnot. destruct Hnot as (? & ? & ? & ? & ? & ? & _).
  apply listify_engines_inv in H as (s1 & s2 & s3 & s4 & s5 & E1 & E2 & E3 & E4 & E5 & ->).
  rewrite getg_setg_ne, getg_listify by done.
  rewrite (listify_entries_frame _ _ _ _ E5) by done.
  rewrite (listify_entries_frame _ _ _ _ E4) by done.
  rewrite (fix_listified_frame _ _ _ _ E3) by done.
  rewrite (fix_listified_frame _ _ _ _ E2) by done.
  by rewrite (fix_listified_frame _ _ _ _ E1) by done.
Qed.

(** An absent [NODE_JS], [V8_ENGINE] or [CLOSURE_COMPILER] stays absent. *)
Lemma listify_engines_none st st' key :
  listify_engines st = Ret st' →
  key = "NODE_JS" ∨ key = "V8_ENGINE" ∨ key = "CLOSURE_COMPILER" →
  getg st key = VNone → getg st' key = VNone.
Proof.
  intros H Hkey Hnone.
  apply listify_engines_inv in H as (s1 & s2 & s3 & s4 & s5 & E1 & E2 & E3 & E4 & E5 & ->).
  destruct Hkey as [-> | [-> | ->]].
  - rewrite getg_setg_ne, getg_listify by done.
    rewrite (listify_entries_frame _ _ _ _ E5) by done.
    rewrite (listify_entries_frame _ _ _ _ E4) by done.
    rewrite (fix_listified_frame _ _ _ _ E3) by done.
    rewrite (fix_listified_frame _ _ _ _ E2) by done.
    rewrite (fix_listified_result _ _ _ E1).
    by rewrite Hnone.
  - rewrite getg_setg_ne, getg_listify by done.
    rewrite (listify_entries_frame _ _ _ _ E5) by done.
    rewrite (listify_entries_frame _ _ _ _ E4) by done.
    rewrite (fix_listified_frame _ _ _ _ E3) by done.
    rewrite (fix_listified_result _ _ _ E2).
    rewrite (fix_listified_frame _ _ _ _ E1) by done.
    by rewrite Hnone.
  - rewrite getg_setg_eq.
    assert (getg s5 "CLOSURE_COMPILER" = VNone) as Hc.
    { rewrite (listify_entries_frame _ _ _ _ E5) by done.
      rewrite (listify_entries_frame _ _ _ _ E4) by done.
      rewrite (fix_listified_frame _ _ _ _ E3) by done.
      rewrite (fix_listified_frame _ _ _ _ E2) by done.
      by rewrite (fix_listified_frame _ _ _ _ E1) by done. }
    by rewrite Hc.
Qed.

Lemma derive_cache_and_ports_frame P w st st' key :
  derive_cache_and_ports P w st = Ret st' → key ≠ "CACHE" → key ≠ "PORTS" →
  getg st' key = getg st key.
Proof.
  unfold derive_cache_and_ports. intros H Hne1 Hne2.
  set (st1 := if negb (truthy (getg st "CACHE")) then _ else st) in H.
  assert (getg st1 key = getg st key) as Hst1.
  { subst st1. destruct (negb (truthy (getg st "CACHE"))); [ | done].
    by destruct (truthy (getg st "FROZEN_CACHE") || root_is_writable w);
      rewrite getg_setg_ne. }
  destruct (negb (truthy (getg st1 "PORTS"))).
  - destruct (getg st1 "CACHE"); try discriminate.
    inversion H; subst. by rewrite getg_setg_ne.
  - by inversion H; subst.
Qed.

Lemma derive_version_suffix_frame w key st key' :
  key' ≠ key → getg (derive_version_suffix w key st) key' = getg st key'.
Proof.
  intros Hne. unfold derive_version_suffix.
  destruct (getg st key); try done. by rewrite getg_setg_ne.
Qed.

Lemma derive_version_suffix_result w key st :
  getg (derive_version_suffix w key st) key =
  match getg st key with VNone => getenv w key | v => v end.
Proof.
  unfold derive_version_suffix.
  destruct (getg st key) eqn:Hk; try done. by rewrite getg_setg_eq.
Qed.

(** ** The override loop *)

Lemma propagate_key_same w config st key :
  getg (propagate_key w config st key) key = precedence w config (getg st key) key.
Proof.
  unfold propagate_key, precedence.
  destruct (environ w !! ("EM_" ++ key)) as [s | ]; [by rewrite getg_setg_eq | ].
  destruct (config !! key) as [v | ]; [by rewrite getg_setg_eq | done].
Qed.

Lemma propagate_key_other w config st key key' :
  key ≠ key' → getg (propagate_key w config st key) key' = getg st key'.
Proof.
  intros Hne. unfold propagate_key.
  destruct (environ w !! ("EM_" ++ key)) as [s | ]; [by rewrite getg_setg_ne | ].
  destruct (config !! key) as [v | ]; [by rewrite getg_setg_ne | done].
Qed.

Lemma precedence_idem w config current key :
  precedence w config (precedence w config current key) key
  = precedence w config current key.
Proof.
  unfold precedence.
  destruct (environ w !! ("EM_" ++ key)) as [s | ]; [done | ].
  by destruct (config !! key).
Qed.

Lemma propagate_loop_lookup w config st keys key :
  getg (foldl (propagate_key w config) st keys) key =
  if bool_decide (key ∈ keys) then precedence w config (getg st key) key
  else getg st key.
Proof.
  induction keys as [ | k keys IH] using rev_ind; [done | ].
  rewrite foldl_app. simpl.
  destruct (decide (k = key)) as [-> | Hne].
  - rewrite propagate_key_same, IH.
    rewrite (bool_decide_eq_true_2 (key ∈ (keys ++ [key])%list))
      by (apply elem_of_app; right; apply list_elem_of_singleton; reflexivity).
    case_bool_decide; [apply precedence_idem | done].
  - rewrite propagate_key_other, IH by done.
    apply (f_equal (λ b : bool, if b then _ else _)).
    apply bool_decide_ext. rewrite elem_of_app, list_elem_of_singleton.
    split; [tauto | intros [Hin | Heq]; [done | congruence]].
Qed.

Lemma propagate_settings_lookup w config st key :
  key ∈ CONFIG_KEYS →
  getg (propagate_settings w config st) key = precedence w config (getg st key) key.
Proof.
  intros Hin. unfold propagate_settings.
  by rewrite propagate_loop_lookup, bool_decide_eq_true_2.
Qed.

(** ** [normalize_config_settings] as a whole *)

Lemma normalize_inv P w st st' :
  normalize_config_settings P w st = Ret st' →
  ∃ st1 st2 st3 st4,
    derive_js_engines st = Ret st1 ∧ tweak_spidermonkey st1 = Ret st2 ∧
    listify_engines st2 = Ret st3 ∧ derive_cache_and_ports P w st3 = Ret st4 ∧
    st' = derive_version_suffix w "CLANG_ADD_VERSION"
            (derive_version_suffix w "LLVM_ADD_VERSION" st4).
Proof.
  unfold normalize_config_settings. intros H. do 4 bind_inv H.
  inversion H; subst. by exists st0, st1, st2, st3.
Qed.

Lemma tweak_spidermonkey_skip st :
  truthy (getg st "SPIDERMONKEY_ENGINE") = false → tweak_spidermonkey st = Ret st.
Proof. intros H. unfold tweak_spidermonkey. by rewrite H. Qed.

Lemma flagged_view_none sm : flagged_view sm VNone = VNone.
Proof.
  unfold flagged_view. destruct sm; try done.
  by destruct (truthy _ && negb _).
Qed.

(** Up to line 79, a global that is no engine is only changed by the
    in-place update. *)
Lemma engine_blocks_frame st st1 st2 st3 key :
  derive_js_engines st = Ret st1 → tweak_spidermonkey st1 = Ret st2 →
  listify_engines st2 = Ret st3 →
  key ∉ ENGINE_KEYS → key ≠ "SPIDERMONKEY_ENGINE" →
  getg st3 key = flagged_view (getg st "SPIDERMONKEY_ENGINE") (getg st key).
Proof.
  intros HA HB HC Hnot Hsm.
  pose proof Hnot as Hnot'. unfold ENGINE_KEYS in Hnot'.
  rewrite !not_elem_of_cons in Hnot'. destruct Hnot' as (? & ? & ? & ? & ? & ? & _).
  rewrite (listify_engines_frame _ _ _ HC Hnot).
  rewrite (tweak_spidermonkey_frame _ _ _ HB) by done.
  rewrite (derive_js_engines_frame _ _ key HA) by done.
  by rewrite (derive_js_engines_frame _ _ "SPIDERMONKEY_ENGINE" HA) by done.
Qed.

Ltac split_keys H :=
  repeat (apply elem_of_cons in H as [-> | H]); [ .. | by apply elem_of_nil in H].

Ltac not_in_keys :=
  unfold ENGINE_KEYS, DERIVED_KEYS; rewrite ?not_elem_of_cons;
  repeat split; (done || apply not_elem_of_nil).

Lemma normalize_none_stays P w st st' key :
  normalize_config_settings P w st = Ret st' →
  key ∈ CONFIG_KEYS → key ∉ DERIVED_KEYS →
  getg st key = VNone → getg st' key = VNone.
Proof.
  intros H Hin Hnot Hnone.
  apply normalize_inv in H as (st1 & st2 & st3 & st4 & HA & HB & HC & HD & ->).
  assert (key ≠ "JS_ENGINES" ∧ key ≠ "JS_ENGINE" ∧ key ≠ "CACHE" ∧ key ≠ "PORTS"
          ∧ key ≠ "LLVM_ADD_VERSION" ∧ key ≠ "CLANG_ADD_VERSION")
    as (? & ? & ? & ? & ? & ?).
  { unfold DERIVED_KEYS in Hnot. rewrite !not_elem_of_cons in Hnot. tauto. }
  rewrite !derive_version_suffix_frame by done.
  rewrite (derive_cache_and_ports_frame _ _ _ _ _ HD) by done.
  assert (getg st1 key = VNone) as Hk1
    by (by rewrite (derive_js_engines_frame _ _ _ HA)).
  destruct (decide (key = "SPIDERMONKEY_ENGINE")) as [-> | Hsm].
  { rewrite tweak_spidermonkey_skip in HB by (by rewrite Hk1).
    inversion HB; subst.
    rewrite (listify_engines_frame _ _ _ HC) by not_in_keys. done. }
  assert (getg st2 key = VNone) as Hk2.
  { rewrite (tweak_spidermonkey_frame _ _ _ HB), Hk1 by done.
    apply flagged_view_none. }
  destruct (decide (key ∈ ENGINE_KEYS)) as [Heng | Heng].
  - unfold ENGINE_KEYS in Heng. split_keys Heng; try done.
    + by apply (listify_engines_none _ _ "NODE_JS" HC); [left | ].
    + by apply (listify_engines_none _ _ "V8_ENGINE" HC); [right; left | ].
    + exfalso.
      apply listify_engines_inv in HC
        as (s1 & s2 & s3 & s4 & s5 & E1 & E2 & E3 & E4 & E5 & _).
      unfold listify_entries in E5.
      assert (getg s4 "WASM_ENGINES" = VNone) as Hw.
      { rewrite (listify_entries_frame _ _ _ _ E4) by done.
        rewrite (fix_listified_frame _ _ _ _ E3) by done.
        rewrite (fix_listified_frame _ _ _ _ E2) by done.
        by rewrite (fix_listified_frame _ _ _ _ E1) by done. }
      by rewrite Hw in E5.
    + by apply (listify_engines_none _ _ "CLOSURE_COMPILER" HC); [right; right | ].
  - by rewrite (listify_engines_frame _ _ _ HC Heng).
Qed.

(** ** The mandatory keys *)

Lemma check_mandatory_spec em config st keys :
  (check_mandatory em config st keys = Ret tt ∧
   ∀ key, key ∈ keys → is_Some (config !! key) ∧ truthy (getg st key) = true)
  ∨ (∃ key, key ∈ keys ∧
       ((config !! key = None ∧
         check_mandatory em config st keys = Fatal (key ++ " is not defined in " ++ em))
        ∨ (truthy (getg st key) = false ∧
           check_mandatory em config st keys
           = Fatal (key ++ " is set to empty value in " ++ em)))).
Proof.
  induction keys as [ | k keys IH]; simpl.
  - left. split; [done | ]. intros key Hin. by apply elem_of_nil in Hin.
  - destruct (config !! k) as [v | ] eqn:Hk.
    + destruct (truthy (getg st k)) eqn:Ht; simpl.
      * destruct IH as [[Hok Hall] | (key & Hin & Hbad)].
        -- left. split; [done | ]. intros key Hin.
           apply elem_of_cons in Hin as [-> | Hin]; [by rewrite Hk | by apply Hall].
        -- right. exists key. split; [by apply list_elem_of_further | done].
      * right. exists k. split; [apply list_elem_of_here | by right].
    + right. exists k. split; [apply list_elem_of_here | by left].
Qed.

(** C2: when a mandatory key is missing from the evaluated bindings, or
    its merged value is empty, [parse_config_file] ends in [exit_with_error]
    with a message that names such a key and the configuration path, so no
    normalized state is produced; when all three keys are bound and their
    merged values are non-empty, the check passes and normalization runs on
    the merged state.  The merge and the normalization read the world that
    the evaluation of the text has left. *)
Theorem mandatory_keys_checked P w argv em text config st0 :
  files w !! em = Some text → ev_result (py_exec P w argv text) = Bound config →
  let w' := ev_world (py_exec P w argv text) in
  let merged := propagate_settings w' config st0 in
  ((∃ key, key ∈ MANDATORY_KEYS ∧
           (config !! key = None ∨ truthy (getg merged key) = false)) →
   ∃ key, key ∈ MANDATORY_KEYS ∧
     ((config !! key = None ∧
       res_outcome (parse_config_file P w argv em st0)
       = Fatal (key ++ " is not defined in " ++ em))
      ∨ (truthy (getg merged key) = false ∧
         res_outcome (parse_config_file P w argv em st0)
         = Fatal (key ++ " is set to empty value in " ++ em))))
  ∧ ((∀ key, key ∈ MANDATORY_KEYS →
             is_Some (config !! key) ∧ truthy (getg merged key) = true) →
     check_mandatory em config merged MANDATORY_KEYS = Ret tt ∧
     res_outcome (parse_config_file P w argv em st0)
     = normalize_config_settings P w' merged).
Proof.
  intros Hfile Hexec w' merged.
  assert (res_outcome (parse_config_file P w argv em st0)
          = apply_config P w' em config st0) as ->.
  { unfold parse_config_file, read_file. rewrite Hfile. simpl. by rewrite Hexec. }
  unfold apply_config. fold merged.
  destruct (check_mandatory_spec em config merged MANDATORY_KEYS)
    as [[Hok Hall] | (key & Hin & Hbad)].
  - split.
    + intros (key & Hin & Hbad). destruct (Hall key Hin) as [[v Hv] Ht].
      destruct Hbad as [Hbad | Hbad]; congruence.
    + intros _. split; [done | ]. rewrite Hok. simpl.
      destruct (Hall "NODE_JS") as [_ ->]; [ | done].
      unfold MANDATORY_KEYS. apply list_elem_of_further, list_elem_of_here.
  - split.
    + intros _. exists key. split; [done | ].
      destruct Hbad as [[Hnone ->] | [Hempty ->]]; [by left | by right].
    + intros Hall. destruct (Hall key Hin) as [[v Hv] Ht].
      destruct Hbad as [[Hnone _] | [Hempty _]]; congruence.
Qed.

(** The configuration without [BINARYEN_ROOT] is rejected. *)
Lemma mandatory_keys_checked_witness :
  ∃ key, key ∈ MANDATORY_KEYS ∧
    ((Sample.incomplete_config !! key = None ∧
      res_outcome (parse_config_file Sample.install
                     (Sample.world_of ∅ Sample.incomplete_text) ["emcc"]
                     Sample.config_path (initial_state Sample.root))
      = Fatal (key ++ " is not defined in " ++ Sample.config_path))
     ∨ (truthy (getg (propagate_settings (Sample.world_of ∅ Sample.incomplete_text)
                        Sample.incomplete_config (initial_state Sample.root)) key)
        = false ∧
        res_outcome (parse_config_file Sample.install
                       (Sample.world_of ∅ Sample.incomplete_text) ["emcc"]
                       Sample.config_path (initial_state Sample.root))
        = Fatal (key ++ " is set to empty value in " ++ Sample.config_path))).
Proof.
  refine (proj1 (mandatory_keys_checked Sample.install
                   (Sample.world_of ∅ Sample.incomplete_text) ["emcc"]
                   Sample.config_path
                   Sample.incomplete_text Sample.incomplete_config
                   (initial_state Sample.root) _ _) _).
  - vm_compute. reflexivity.
  - vm_compute. reflexivity.
  - exists "BINARYEN_ROOT". split.
    + unfold MANDATORY_KEYS. repeat constructor.
    + left. vm_compute. reflexivity.
Defined.

(** ** The override loop: claims *)

(** C10: a non-empty override [EM_<key>] leaves exactly that string as the
    value of the key after the loop, whatever the key: it is not parsed,
    split or wrapped in a list. *)
Theorem override_kept_as_string w config st key s :
  key ∈ CONFIG_KEYS → environ w !! ("EM_" ++ key) = Some s → s ≠ "" →
  getg (propagate_settings w config st) key = VStr s.
Proof.
  intros Hin Henv Hs.
  rewrite propagate_settings_lookup by done. unfold precedence. rewrite Henv.
  destruct (String.eqb_spec s ""); [done | reflexivity].
Qed.

(** [EM_JS_ENGINES=node] makes [JS_ENGINES] the string ['node'], not a
    list of engines. *)
Lemma override_kept_as_string_witness :
  "JS_ENGINES" ∈ CONFIG_KEYS ∧
  environ (Sample.world_of {[ "EM_JS_ENGINES" := "node" ]} Sample.mandatory_text)
    !! ("EM_" ++ "JS_ENGINES") = Some "node" ∧
  "node" ≠ "" ∧
  getg (propagate_settings
          (Sample.world_of {[ "EM_JS_ENGINES" := "node" ]} Sample.mandatory_text)
          Sample.mandatory_config (initial_state Sample.root)) "JS_ENGINES"
  = VStr "node".
Proof.
  assert ("JS_ENGINES" ∈ CONFIG_KEYS) as Hin by (unfold CONFIG_KEYS; repeat constructor).
  assert (environ (Sample.world_of {[ "EM_JS_ENGINES" := "node" ]} Sample.mandatory_text)
            !! ("EM_" ++ "JS_ENGINES") = Some "node") as Henv by (vm_compute; reflexivity).
  assert ("node" ≠ "") as Hne by discriminate.
  split; [exact Hin | split; [exact Henv | split; [exact Hne | ]]].
  exact (override_kept_as_string _ Sample.mandatory_config (initial_state Sample.root)
           "JS_ENGINES" "node" Hin Henv Hne).
Defined.

(** ** Cache and ports directories *)

Lemma derive_cache_and_ports_spec P w st st' :
  derive_cache_and_ports P w st = Ret st' →
  getg st' "CACHE" =
    (if truthy (getg st "CACHE") then getg st "CACHE"
     else if truthy (getg st "FROZEN_CACHE") || root_is_writable w
          then VStr (path_from_root P ["cache"])
          else VStr (expanduser P (home w) (path_join P "~" ".emscripten_cache")))
  ∧ (if truthy (getg st "PORTS") then getg st' "PORTS" = getg st "PORTS"
     else ∃ cache, getg st' "CACHE" = VStr cache
                   ∧ getg st' "PORTS" = VStr (path_join P cache "ports")).
Proof.
  unfold derive_cache_and_ports. intros H.
  set (st1 := if negb (truthy (getg st "CACHE")) then _ else st) in H.
  assert (getg st1 "CACHE" =
            (if truthy (getg st "CACHE") then getg st "CACHE"
             else if truthy (getg st "FROZEN_CACHE") || root_is_writable w
                  then VStr (path_from_root P ["cache"])
                  else VStr (expanduser P (home w) (path_join P "~" ".emscripten_cache"))))
    as Hcache.
  { subst st1. destruct (truthy (getg st "CACHE")); simpl; [done | ].
    by destruct (truthy (getg st "FROZEN_CACHE") || root_is_writable w);
      rewrite getg_setg_eq. }
  assert (getg st1 "PORTS" = getg st "PORTS") as Hports.
  { subst st1. destruct (truthy (getg st "CACHE")); simpl; [done | ].
    by destruct (truthy (getg st "FROZEN_CACHE") || root_is_writable w);
      rewrite getg_setg_ne. }
  rewrite Hports in H.
  destruct (truthy (getg st "PORTS")); simpl in H.
  - inversion H; subst st'. by rewrite Hports.
  - destruct (getg st1 "CACHE") as [ | | | cache | ] eqn:Hc; try discriminate.
    inversion H; subst st'. rewrite getg_setg_ne, getg_setg_eq by done.
    rewrite <- Hcache, Hc. split; [done | by exists cache].
Qed.

Lemma apply_config_inv P w em config st0 st :
  apply_config P w em config st0 = Ret st →
  normalize_config_settings P w (propagate_settings w config st0) = Ret st.
Proof.
  unfold apply_config. intros H. bind_inv H.
  by destruct (negb (truthy (getg (propagate_settings w config st0) "NODE_JS"))).
Qed.

(** [JS_ENGINES] is never left empty. *)

Lemma truthy_iterate v items :
  truthy v = true → iterate v = Some items → items ≠ [].
Proof.
  destruct v as [ | | | s | id xs]; simpl; intros Ht Hi; try discriminate.
  - inversion Hi; subst. by destruct s.
  - inversion Hi; subst. by destruct items.
Qed.

Lemma truthy_extend_at target extra v :
  truthy v = true → truthy (extend_at target extra v) = true.
Proof.
  destruct v as [ | | | | id xs]; simpl; try done.
  destruct xs as [ | x xs]; [done | ]. intros _.
  by destruct (ident_eqb id target).
Qed.

Lemma fix_js_engine_engines old new st r :
  fix_js_engine old new st = Ret r →
  (old = VNone ∧ r.2 = st)
  ∨ (old ≠ VNone ∧ ∃ items,
       iterate (getg st "JS_ENGINES") = Some items ∧
       getg r.2 "JS_ENGINES"
       = VList (Mod (next_id st)) (map (λ x, if py_eq x old then new else x) items)).
Proof.
  unfold fix_js_engine. intros H.
  destruct old as [ | b | z | s | oid oitems]; [left; by inversion H | right ..];
    (split; [done | ]);
    (destruct (iterate (getg st "JS_ENGINES")) as [items | ]; [ | discriminate]);
    exists items; (split; [done | ]); inversion H; subst; simpl;
    apply getg_setg_eq.
Qed.

Lemma fix_js_engine_truthy old new st r :
  fix_js_engine old new st = Ret r →
  truthy (getg st "JS_ENGINES") = true → truthy (getg r.2 "JS_ENGINES") = true.
Proof.
  intros H Ht.
  destruct (fix_js_engine_engines _ _ _ _ H) as [[_ ->] | (_ & items & Hi & ->)];
    [done | ].
  pose proof (truthy_iterate _ _ Ht Hi). simpl. by destruct items.
Qed.

Lemma derive_js_engines_truthy st st' :
  derive_js_engines st = Ret st' → truthy (getg st' "JS_ENGINES") = true.
Proof.
  unfold derive_js_engines. intros H.
  set (st1 := if negb (truthy (getg st "JS_ENGINES")) then _ else st) in H.
  assert (truthy (getg st1 "JS_ENGINES") = true) as Hst1.
  { subst st1. destruct (truthy (getg st "JS_ENGINES")) eqn:Ht; simpl; [done | ].
    by rewrite getg_setg_eq. }
  destruct (negb (truthy (getg st1 "JS_ENGINE"))).
  - destruct (first_item (getg st1 "JS_ENGINES")); [discriminate | ].
    inversion H; subst. by rewrite getg_setg_ne.
  - by inversion H; subst.
Qed.

Lemma tweak_spidermonkey_truthy st st' :
  tweak_spidermonkey st = Ret st' →
  truthy (getg st "JS_ENGINES") = true → truthy (getg st' "JS_ENGINES") = true.
Proof.
  unfold tweak_spidermonkey. intros H Ht.
  destruct (truthy (getg st "SPIDERMONKEY_ENGINE")); [ | by inversion H; subst].
  apply bind_ret_inv in H as (s1 & H1 & H). apply bind_ret_inv in H as (r & H2 & H).
  inversion H; subst; clear H. rewrite getg_setg_ne by done.
  apply (fix_js_engine_truthy _ _ _ _ H2).
  destruct (negb (str_contains "-w" (py_str (getg st "SPIDERMONKEY_ENGINE")))).
  - unfold iadd_list in H1. destruct (getg st "SPIDERMONKEY_ENGINE"); try discriminate.
    inversion H1; subst. unfold getg at 1; simpl.
    rewrite getg_extend by done. by apply truthy_extend_at.
  - by inversion H1; subst.
Qed.

Lemma fix_listified_truthy key st st' :
  fix_listified key st = Ret st' → key ≠ "JS_ENGINES" →
  truthy (getg st "JS_ENGINES") = true → truthy (getg st' "JS_ENGINES") = true.
Proof.
  unfold fix_listified. intros H Hne Ht.
  destruct (listify (getg st key) st) as [new s1] eqn:Hl.
  apply bind_ret_inv in H as (r & H1 & H). inversion H; subst; clear H.
  rewrite getg_setg_ne by done. apply (fix_js_engine_truthy _ _ _ _ H1).
  pose proof (getg_listify (getg st key) st "JS_ENGINES") as Hg.
  rewrite Hl in Hg. simpl in Hg. by rewrite Hg.
Qed.

Lemma length_listify_each items st :
  List.length (listify_each items st).1 = List.length items.
Proof.
  revert st. induction items as [ | x rest IH]; intros st; simpl; [done | ].
  destruct (listify x st) as [x' st1].
  specialize (IH st1). destruct (listify_each rest st1) as [rest' st2].
  simpl in *. by rewrite IH.
Qed.

Lemma listify_entries_nonempty key st st' :
  listify_entries key st = Ret st' → truthy (getg st key) = true →
  ∃ id items, getg st' key = VList id items ∧ items ≠ [].
Proof.
  unfold listify_entries. intros H Ht.
  destruct (iterate (getg st key)) as [items | ] eqn:Hi; [ | discriminate].
  pose proof (truthy_iterate _ _ Ht Hi) as Hne.
  pose proof (length_listify_each items st) as Hlen.
  destruct (listify_each items st) as [items' s1]. simpl in *.
  inversion H; subst; clear H. rewrite getg_setg_eq.
  eexists _, _. split; [done | ].
  destruct items; [done | ]. by destruct items'.
Qed.

Lemma normalize_engines_nonempty P w st st' :
  normalize_config_settings P w st = Ret st' →
  ∃ id items, getg st' "JS_ENGINES" = VList id items ∧ items ≠ [].
Proof.
  intros H.
  apply normalize_inv in H as (st1 & st2 & st3 & st4 & HA & HB & HC & HD & ->).
  rewrite !derive_version_suffix_frame by done.
  rewrite (derive_cache_and_ports_frame _ _ _ _ _ HD) by done.
  apply listify_engines_inv in HC
    as (s1 & s2 & s3 & s4 & s5 & E1 & E2 & E3 & E4 & E5 & ->).
  rewrite getg_setg_ne, getg_listify by done.
  rewrite (listify_entries_frame _ _ _ _ E5) by done.
  apply (listify_entries_nonempty _ _ _ E4).
  apply (fix_listified_truthy _ _ _ E3); [done | ].
  apply (fix_listified_truthy _ _ _ E2); [done | ].
  apply (fix_listified_truthy _ _ _ E1); [done | ].
  apply (tweak_spidermonkey_truthy _ _ HB).
  by apply (derive_js_engines_truthy _ _ HA).
Qed.

Lemma derive_js_engines_first st st1 :
  derive_js_engines st = Ret st1 → truthy (getg st "JS_ENGINE") = false →
  ∃ first, first_item (seeded_engines st) = inr first ∧ getg st1 "JS_ENGINE" = first.
Proof.
  unfold derive_js_engines, seeded_engines. intros H Hj.
  set (s := if negb (truthy (getg st "JS_ENGINES")) then _ else st) in H.
  assert (getg s "JS_ENGINE" = getg st "JS_ENGINE") as Hsame.
  { subst s. destruct (truthy (getg st "JS_ENGINES")); simpl; [done | ].
    by rewrite getg_setg_ne. }
  assert (getg s "JS_ENGINES"
          = if truthy (getg st "JS_ENGINES") then getg st "JS_ENGINES"
            else VList (Mod (next_id st)) [getg st "NODE_JS"]) as Hengines.
  { subst s. destruct (truthy (getg st "JS_ENGINES")); simpl; [done | ].
    by rewrite getg_setg_eq. }
  rewrite Hsame, Hj, Hengines in H. simpl in H.
  destruct (first_item _) as [e | first]; [discriminate | ].
  exists first. split; [done | ]. inversion H; subst. by rewrite getg_setg_eq.
Qed.

Lemma listified_listify v st : listified v (listify v st).1.
Proof. destruct v; simpl; try done; by eexists. Qed.

(** C1 (amended): the value of a recognized key after the override loop is
    the string of [EM_<key>] when that is non-empty, [None] when it is
    empty (whatever the source bound), and otherwise the value the source
    bound, or the module default when it bound none.  A key that is [None]
    after the loop stays [None] in the final configuration unless
    normalization derives it: [CACHE], [PORTS], [LLVM_ADD_VERSION] and
    [CLANG_ADD_VERSION] get their computed default, [JS_ENGINES] becomes a
    non-empty list, and [JS_ENGINE] becomes [listify] of the first entry
    that [JS_ENGINES] has after lines 63-64, as the in-place update of
    line 72 leaves that entry. *)
Theorem precedence_chain P w em config st0 key :
  key ∈ CONFIG_KEYS →
  let merged := propagate_settings w config st0 in
  (∀ s, environ w !! ("EM_" ++ key) = Some s → s ≠ "" → getg merged key = VStr s)
  ∧ (environ w !! ("EM_" ++ key) = Some "" → getg merged key = VNone)
  ∧ (environ w !! ("EM_" ++ key) = None →
     getg merged key = default (getg st0 key) (config !! key))
  ∧ (∀ st, apply_config P w em config st0 = Ret st → getg merged key = VNone →
       (key ∉ DERIVED_KEYS → getg st key = VNone)
       ∧ (key = "CACHE" →
          getg st key = VStr (path_from_root P ["cache"])
          ∨ getg st key
            = VStr (expanduser P (home w) (path_join P "~" ".emscripten_cache")))
       ∧ (key = "PORTS" →
          ∃ cache, getg st "CACHE" = VStr cache
                   ∧ getg st key = VStr (path_join P cache "ports"))
       ∧ (key = "LLVM_ADD_VERSION" ∨ key = "CLANG_ADD_VERSION" →
          getg st key = getenv w key)
       ∧ (key = "JS_ENGINES" →
          ∃ id items, getg st key = VList id items ∧ items ≠ [])
       ∧ (key = "JS_ENGINE" →
          ∃ first,
            first_item (seeded_engines merged) = inr first
            ∧ listified (flagged_view (getg merged "SPIDERMONKEY_ENGINE") first)
                (getg st key))).
Proof.
  intros Hin merged.
  assert (getg merged key = precedence w config (getg st0 key) key) as Hmerged
    by (by apply propagate_settings_lookup).
  unfold precedence in Hmerged.
  split; [ | split; [ | split]].
  - intros s Henv Hs. rewrite Hmerged, Henv.
    destruct (String.eqb_spec s ""); [done | reflexivity].
  - intros Henv. by rewrite Hmerged, Henv.
  - intros Henv. by rewrite Hmerged, Henv.
  - intros st Hrun Hnone. apply apply_config_inv in Hrun. fold merged in Hrun.
    split; [ | split; [ | split; [ | split; [ | split]]]].
    + intros Hnot. by apply (normalize_none_stays _ _ _ _ _ Hrun).
    + intros ->.
      apply normalize_inv in Hrun as (st1 & st2 & st3 & st4 & HA & HB & HC & HD & ->).
      rewrite !derive_version_suffix_frame by done.
      destruct (derive_cache_and_ports_spec _ _ _ _ HD) as [Hcache _].
      rewrite (engine_blocks_frame _ _ _ _ "CACHE" HA HB HC) in Hcache
        by (done || not_in_keys).
      rewrite Hnone, flagged_view_none in Hcache. simpl in Hcache. rewrite Hcache.
      destruct (truthy (getg st3 "FROZEN_CACHE") || root_is_writable w); [by left | by right].
    + intros ->.
      apply normalize_inv in Hrun as (st1 & st2 & st3 & st4 & HA & HB & HC & HD & ->).
      rewrite !derive_version_suffix_frame by done.
      destruct (derive_cache_and_ports_spec _ _ _ _ HD) as [_ Hports].
      rewrite (engine_blocks_frame _ _ _ _ "PORTS" HA HB HC) in Hports
        by (done || not_in_keys).
      by rewrite Hnone, flagged_view_none in Hports.
    + intros Hkey.
      apply normalize_inv in Hrun as (st1 & st2 & st3 & st4 & HA & HB & HC & HD & ->).
      assert (getg st4 key = VNone) as H4.
      { destruct Hkey as [-> | ->];
          rewrite (derive_cache_and_ports_frame _ _ _ _ _ HD) by done;
          rewrite (engine_blocks_frame _ _ _ _ _ HA HB HC) by (done || not_in_keys);
          by rewrite Hnone, flagged_view_none. }
      destruct Hkey as [-> | ->].
      * rewrite derive_version_suffix_frame, derive_version_suffix_result by done.
        by rewrite H4.
      * rewrite derive_version_suffix_result, derive_version_suffix_frame by done.
        by rewrite H4.
    + intros ->. by apply (normalize_engines_nonempty _ _ _ _ Hrun).
    + intros ->.
      apply normalize_inv in Hrun as (st1 & st2 & st3 & st4 & HA & HB & HC & HD & ->).
      rewrite !derive_version_suffix_frame by done.
      rewrite (derive_cache_and_ports_frame _ _ _ _ _ HD) by done.
      destruct (derive_js_engines_first _ _ HA) as (first & Hfirst & Hj1);
        [by rewrite Hnone | ].
      exists first. split; [done | ].
      apply listify_engines_inv in HC
        as (s1 & s2 & s3 & s4 & s5 & E1 & E2 & E3 & E4 & E5 & ->).
      rewrite getg_setg_ne, getg_listify by done.
      rewrite (listify_entries_frame _ _ _ _ E5) by done.
      rewrite (listify_entries_frame _ _ _ _ E4) by done.
      rewrite (fix_listified_result _ _ _ E3).
      rewrite (fix_listified_frame _ _ _ _ E2) by done.
      rewrite (fix_listified_frame _ _ _ _ E1) by done.
      rewrite (tweak_spidermonkey_frame _ _ _ HB) by done.
      rewrite Hj1, (derive_js_engines_frame _ _ _ HA) by done.
      apply listified_listify.
Qed.

(** With [EM_CACHE] empty, [CACHE] is [None] after the loop. *)
Lemma precedence_chain_witness :
  "CACHE" ∈ CONFIG_KEYS
  ∧ environ (Sample.world_of {[ "EM_CACHE" := "" ]} Sample.cache_text)
      !! ("EM_" ++ "CACHE") = Some ""
  ∧ getg (propagate_settings (Sample.world_of {[ "EM_CACHE" := "" ]} Sample.cache_text)
            Sample.cache_config (initial_state Sample.root)) "CACHE" = VNone.
Proof.
  assert ("CACHE" ∈ CONFIG_KEYS) as Hin by (unfold CONFIG_KEYS; repeat constructor).
  assert (environ (Sample.world_of {[ "EM_CACHE" := "" ]} Sample.cache_text)
            !! ("EM_" ++ "CACHE") = Some "") as Henv by (vm_compute; reflexivity).
  split; [exact Hin | split; [exact Henv | ]].
  exact (proj1 (proj2 (precedence_chain Sample.install
                         (Sample.world_of {[ "EM_CACHE" := "" ]} Sample.cache_text)
                         Sample.config_path Sample.cache_config
                         (initial_state Sample.root) "CACHE" Hin)) Henv).
Defined.

(** C1 as stated fails: the source binds [CACHE = '/x'] and [EM_CACHE] is
    set to the empty string, yet the final configuration holds the
    root-relative cache directory for [CACHE], not [None]. *)
Lemma empty_override_not_absent :
  environ (Sample.world_of {[ "EM_CACHE" := "" ]} Sample.cache_text) !! "EM_CACHE"
  = Some ""
  ∧ (∀ w argv, ev_result (py_exec Sample.install w argv Sample.cache_text)
               = Bound Sample.cache_config)
  ∧ Sample.cache_config !! "CACHE" = Some (VStr "/x")
  ∧ resolves Sample.install
      (Sample.world_of {[ "EM_CACHE" := "" ]} Sample.cache_text) ["emcc"] = true
  ∧ final_value Sample.install
      (Sample.world_of {[ "EM_CACHE" := "" ]} Sample.cache_text) ["emcc"] "CACHE"
    = VStr "/emsdk/upstream/emscripten/cache"
  ∧ final_value Sample.install
      (Sample.world_of {[ "EM_CACHE" := "" ]} Sample.cache_text) ["emcc"] "CACHE"
    ≠ VNone.
Proof.
  split; [vm_compute; reflexivity | ]. split; [intros w argv; reflexivity | ].
  split; [vm_compute; reflexivity | ]. split; [vm_compute; reflexivity | ].
  split; [vm_compute; reflexivity | vm_compute; discriminate].
Qed.

(** ** Aliases and the in-place update *)

Lemma ident_eqb_eq a b : ident_eqb a b = true → a = b.
Proof.
  destruct a, b; simpl; intros H; try discriminate;
    by apply Nat.eqb_eq in H as ->.
Qed.

Lemma ident_eqb_refl a : ident_eqb a a = true.
Proof. destruct a; simpl; apply Nat.eqb_refl. Qed.

Lemma value_beq_eq a : ∀ b, value_beq a b = true → a = b.
Proof.
  induction a as [ | x | x | x | i xs IH] using value_ind_items;
    intros [ | y | y | y | j ys]; simpl; intros H; try discriminate.
  - done.
  - by apply Bool.eqb_prop in H as ->.
  - by apply Z.eqb_eq in H as ->.
  - by apply String.eqb_eq in H as ->.
  - apply andb_true_iff in H as [Hid Hitems].
    apply ident_eqb_eq in Hid as ->. f_equal.
    revert ys Hitems. induction IH as [ | x xs Hx _ IHxs]; intros [ | y ys] Hitems;
      try discriminate; [done | ].
    apply andb_true_iff in Hitems as [Hxy Hrest].
    f_equal; [by apply Hx | by apply IHxs].
Qed.

Lemma same_items_eq xs ys : same_items xs ys = true → xs = ys.
Proof. intros H. apply value_beq_eq in H. by inversion H. Qed.

Lemma config_objects_lookup config key id items :
  config !! key = Some (VList id items) → (id, items) ∈ config_objects config.
Proof.
  intros H. unfold config_objects. apply list_elem_of_In, in_flat_map.
  exists (VList id items). split; [ | by left].
  apply list_elem_of_In, list_elem_of_fmap. exists (key, VList id items).
  split; [done | by apply elem_of_map_to_list].
Qed.

Lemma consistent_lookup config key1 key2 id xs ys :
  consistent config = true →
  config !! key1 = Some (VList id xs) → config !! key2 = Some (VList id ys) →
  xs = ys.
Proof.
  unfold consistent. intros Hc H1 H2.
  apply config_objects_lookup, list_elem_of_In in H1.
  apply config_objects_lookup, list_elem_of_In in H2.
  rewrite forallb_forall in Hc. specialize (Hc _ H1).
  rewrite forallb_forall in Hc. specialize (Hc _ H2). simpl in Hc.
  rewrite ident_eqb_refl in Hc. by apply same_items_eq.
Qed.

(** The in-place update cannot turn an empty value into a non-empty one,
    unless an empty list had the identity of the non-empty list that is
    extended. *)
Lemma truthy_flagged_view sm v :
  (∀ id xs, sm = VList id xs → v = VList id [] → xs = []) →
  truthy (flagged_view sm v) = truthy v.
Proof.
  intros Hdistinct. unfold flagged_view.
  destruct sm as [ | | | | id xs]; try done.
  destruct (truthy (VList id xs) && negb (str_contains "-w" (py_str (VList id xs))))
    eqn:Hcond; [ | done].
  apply andb_true_iff in Hcond as [Hsm _].
  destruct v as [ | | | | id' ys]; try done. simpl.
  destruct (ident_eqb id' id) eqn:Hid; simpl.
  - apply ident_eqb_eq in Hid as ->.
    destruct ys as [ | y ys]; [ | done].
    by rewrite (Hdistinct id xs eq_refl eq_refl) in Hsm.
  - by rewrite length_map.
Qed.

Lemma initial_state_none root key :
  key ∈ CONFIG_KEYS → key ≠ "WASM_ENGINES" → getg (initial_state root) key = VNone.
Proof.
  intros Hin Hne. unfold CONFIG_KEYS in Hin. split_keys Hin; done.
Qed.

(** After the loop, a list that is no default comes from the evaluated
    bindings. *)
Lemma merged_list_from_config w config root key id xs :
  key ∈ CONFIG_KEYS → key ≠ "WASM_ENGINES" →
  getg (propagate_settings w config (initial_state root)) key = VList id xs →
  config !! key = Some (VList id xs).
Proof.
  intros Hin Hne. rewrite propagate_settings_lookup by done. unfold precedence.
  destruct (environ w !! ("EM_" ++ key)) as [s | ].
  - by destruct (String.eqb s "").
  - destruct (config !! key) as [v | ]; simpl; [by intros -> | ].
    by rewrite initial_state_none.
Qed.

Lemma truthy_merged_flagged w config root key :
  consistent config = true →
  key ∈ CONFIG_KEYS → key ≠ "WASM_ENGINES" →
  let merged := propagate_settings w config (initial_state root) in
  truthy (flagged_view (getg merged "SPIDERMONKEY_ENGINE") (getg merged key))
  = truthy (getg merged key).
Proof.
  intros Hc Hin Hne merged. apply truthy_flagged_view. intros id xs Hsm Hkey.
  apply merged_list_from_config in Hsm;
    [ | unfold CONFIG_KEYS; repeat constructor | done].
  apply merged_list_from_config in Hkey; [ | done | done].
  by apply (consistent_lookup config "SPIDERMONKEY_ENGINE" key id).
Qed.

(** C7: in a successful resolution where [CACHE] is empty after the
    override loop, the final [CACHE] is [path_from_root('cache')] when
    [FROZEN_CACHE] is set or the root is writable, and the home-directory
    path [expanduser(join('~', '.emscripten_cache'))] otherwise; and where
    [PORTS] is empty after the loop, the final [PORTS] is the ['ports']
    entry of the final cache directory. *)
Theorem cache_and_ports_derived P w em config st :
  consistent config = true →
  apply_config P w em config (initial_state (rootpath P)) = Ret st →
  let merged := propagate_settings w config (initial_state (rootpath P)) in
  (truthy (getg merged "CACHE") = false →
   getg st "CACHE" =
     VStr (if truthy (getg merged "FROZEN_CACHE") || root_is_writable w
           then path_from_root P ["cache"]
           else expanduser P (home w) (path_join P "~" ".emscripten_cache")))
  ∧ (truthy (getg merged "PORTS") = false →
     ∃ cache, getg st "CACHE" = VStr cache
              ∧ getg st "PORTS" = VStr (path_join P cache "ports")).
Proof.
  intros Hc Hrun merged. apply apply_config_inv in Hrun. fold merged in Hrun.
  apply normalize_inv in Hrun as (st1 & st2 & st3 & st4 & HA & HB & HC & HD & ->).
  rewrite !derive_version_suffix_frame by done.
  destruct (derive_cache_and_ports_spec _ _ _ _ HD) as [Hcache Hports].
  assert (∀ key, key ∈ ["CACHE"; "FROZEN_CACHE"; "PORTS"] →
            truthy (getg st3 key) = truthy (getg merged key)) as Hsame.
  { intros key Hkey.
    assert (key ∈ CONFIG_KEYS ∧ key ≠ "WASM_ENGINES" ∧ (key ∉ ENGINE_KEYS)
            ∧ key ≠ "SPIDERMONKEY_ENGINE") as (? & ? & ? & ?).
    { split_keys Hkey; (split; [unfold CONFIG_KEYS; repeat constructor | ]);
        (split; [done | ]); (split; [not_in_keys | done]). }
    rewrite (engine_blocks_frame _ _ _ _ key HA HB HC) by done.
    by apply truthy_merged_flagged. }
  rewrite (Hsame "CACHE"), (Hsame "FROZEN_CACHE") in Hcache by (repeat constructor).
  rewrite (Hsame "PORTS") in Hports by (repeat constructor).
  split.
  - intros Hunset. rewrite Hunset in Hcache. rewrite Hcache.
    by destruct (truthy (getg merged "FROZEN_CACHE") || root_is_writable w).
  - intros Hunset. rewrite Hunset in Hports.
    destruct Hports as (cache & H1 & H2). by exists cache.
Qed.

(** A read-only installation with no cache setting: the cache goes to the
    home directory, the ports below it. *)
Lemma cache_and_ports_derived_witness :
  consistent Sample.mandatory_config = true
  ∧ apply_config Sample.install
      {| environ := ∅; files := ∅; root_writable := false; clock := 0 |}
      Sample.config_path Sample.mandatory_config (initial_state Sample.root)
    = Ret (state_of (apply_config Sample.install
                       {| environ := ∅; files := ∅; root_writable := false; clock := 0 |}
                       Sample.config_path Sample.mandatory_config
                       (initial_state Sample.root)))
  ∧ getg (state_of (apply_config Sample.install
                      {| environ := ∅; files := ∅; root_writable := false; clock := 0 |}
                      Sample.config_path Sample.mandatory_config
                      (initial_state Sample.root))) "CACHE"
    = VStr "/home/dev/.emscripten_cache".
Proof.
  assert (consistent Sample.mandatory_config = true) as Hc by (vm_compute; reflexivity).
  assert (apply_config Sample.install
            {| environ := ∅; files := ∅; root_writable := false; clock := 0 |}
            Sample.config_path Sample.mandatory_config (initial_state Sample.root)
          = Ret (state_of (apply_config Sample.install
                             {| environ := ∅; files := ∅; root_writable := false; clock := 0 |}
                             Sample.config_path Sample.mandatory_config
                             (initial_state Sample.root)))) as Hrun
    by (apply is_ret_state_of; vm_compute; reflexivity).
  split; [exact Hc | split; [exact Hrun | ]].
  refine (eq_trans
            (proj1 (cache_and_ports_derived Sample.install _ Sample.config_path
                      Sample.mandatory_config _ Hc Hrun) _) _);
    vm_compute; reflexivity.
Defined.

(** ** The engines list *)

Lemma made_by_exec_lookup config key id items :
  made_by_exec config = true → config !! key = Some (VList id items) →
  ∃ n, id = Cfg n.
Proof.
  unfold made_by_exec. intros Hm H.
  apply config_objects_lookup, list_elem_of_In in H.
  rewrite forallb_forall in Hm. specialize (Hm _ H). simpl in Hm.
  destruct id as [n | n]; [by exists n | discriminate].
Qed.

Lemma py_eq_single id e v :
  py_eq (VList id [VStr e]) v = true → ∃ id', v = VList id' [VStr e].
Proof.
  destruct v as [ | | | | id' ys]; simpl; try discriminate.
  destruct ys as [ | y [ | y' ys]]; try discriminate.
  - destruct y; try discriminate. rewrite andb_true_r.
    intros H. apply String.eqb_eq in H as ->. by exists id'.
  - destruct y; try discriminate. rewrite andb_false_r. discriminate.
Qed.

(** Lines 63-66 when neither [JS_ENGINES] nor [JS_ENGINE] is given. *)
Lemma derive_js_engines_seed st st1 e :
  derive_js_engines st = Ret st1 →
  truthy (getg st "JS_ENGINES") = false → truthy (getg st "JS_ENGINE") = false →
  getg st "NODE_JS" = VStr e →
  getg st1 "JS_ENGINES" = VList (Mod (next_id st)) [VStr e]
  ∧ getg st1 "JS_ENGINE" = VStr e.
Proof.
  unfold derive_js_engines. intros H Hje Hj Hn.
  rewrite Hje in H. simpl in H.
  rewrite getg_setg_ne in H by done. unfold getg at 1 in H. simpl in H.
  fold (getg st "JS_ENGINE") in H. rewrite Hj in H. simpl in H.
  rewrite getg_setg_eq, Hn in H. simpl in H. inversion H; subst; clear H.
  by rewrite getg_setg_ne, !getg_setg_eq.
Qed.

Lemma tweak_spidermonkey_seed st st' n e :
  tweak_spidermonkey st = Ret st' →
  (∀ id xs, getg st "SPIDERMONKEY_ENGINE" = VList id xs → ∃ m, id = Cfg m) →
  getg st "JS_ENGINES" = VList (Mod n) [VStr e] →
  ∃ id, getg st' "JS_ENGINES" = VList id [VStr e].
Proof.
  unfold tweak_spidermonkey. intros H Hcfg Hje.
  destruct (truthy (getg st "SPIDERMONKEY_ENGINE"));
    [ | inversion H; subst; by exists (Mod n)].
  apply bind_ret_inv in H as (s1 & H1 & H). apply bind_ret_inv in H as (r & H2 & H).
  inversion H; subst; clear H. rewrite getg_setg_ne by done.
  assert (getg s1 "JS_ENGINES" = VList (Mod n) [VStr e]) as Hs1.
  { destruct (negb (str_contains "-w" (py_str (getg st "SPIDERMONKEY_ENGINE"))));
      [ | by inversion H1; subst].
    unfold iadd_list in H1.
    destruct (getg st "SPIDERMONKEY_ENGINE") as [ | | | | id xs] eqn:Hsm;
      try discriminate.
    destruct (Hcfg id xs eq_refl) as [m ->].
    inversion H1; subst. unfold getg at 1; simpl.
    rewrite getg_extend by done. by rewrite Hje. }
  destruct (fix_js_engine_engines _ _ _ _ H2) as [[_ ->] | (_ & items & Hi & ->)];
    [by exists (Mod n) | ].
  rewrite Hs1 in Hi. inversion Hi; subst; clear Hi. simpl.
  eexists. f_equal. f_equal.
  destruct (getg s1 "SPIDERMONKEY_ENGINE") as [ | | | s | ]; simpl; try done.
  destruct (String.eqb_spec e s) as [-> | ]; done.
Qed.

(** A step of lines 74-76 on an engines list with one entry. *)
Lemma fix_listified_seed_scalar key st st' id e :
  fix_listified key st = Ret st' → key ≠ "JS_ENGINES" →
  getg st key = VStr e → getg st "JS_ENGINES" = VList id [VStr e] →
  ∃ id1 id2, getg st' "JS_ENGINES" = VList id1 [VList id2 [VStr e]].
Proof.
  unfold fix_listified. intros H Hne Hkey Hje.
  destruct (listify (getg st key) st) as [new s1] eqn:Hl.
  apply bind_ret_inv in H as (r & H1 & H). inversion H; subst; clear H.
  rewrite getg_setg_ne by done.
  pose proof (getg_listify (getg st key) st "JS_ENGINES") as Hg.
  rewrite Hl in Hg. simpl in Hg.
  rewrite Hkey in Hl, H1. inversion Hl; subst; clear Hl.
  destruct (fix_js_engine_engines _ _ _ _ H1) as [[? _] | (_ & items & Hi & ->)];
    [done | ].
  rewrite Hg, Hje in Hi. inversion Hi; subst; clear Hi. simpl.
  rewrite String.eqb_refl. by eexists _, _.
Qed.

Lemma fix_listified_seed_list key st st' id id' e :
  fix_listified key st = Ret st' → key ≠ "JS_ENGINES" →
  getg st "JS_ENGINES" = VList id [VList id' [VStr e]] →
  ∃ id1 id2, getg st' "JS_ENGINES" = VList id1 [VList id2 [VStr e]].
Proof.
  unfold fix_listified. intros H Hne Hje.
  destruct (listify (getg st key) st) as [new s1] eqn:Hl.
  apply bind_ret_inv in H as (r & H1 & H). inversion H; subst; clear H.
  rewrite getg_setg_ne by done.
  pose proof (getg_listify (getg st key) st "JS_ENGINES") as Hg.
  rewrite Hl in Hg. simpl in Hg.
  destruct (fix_js_engine_engines _ _ _ _ H1) as [[_ ->] | (_ & items & Hi & ->)].
  - rewrite Hg, Hje. by eexists _, _.
  - rewrite Hg, Hje in Hi. inversion Hi; subst; clear Hi. cbn [map].
    destruct (py_eq (VList id' [VStr e]) (getg st key)) eqn:Heq; [ | by eexists _, _].
    apply py_eq_single in Heq as [id'' Heq]. rewrite Heq in Hl.
    inversion Hl; subst. by eexists _, _.
Qed.

Lemma listify_entries_seed st st' id id' e :
  listify_entries "JS_ENGINES" st = Ret st' →
  getg st "JS_ENGINES" = VList id [VList id' [VStr e]] →
  ∃ id1, getg st' "JS_ENGINES" = VList id1 [VList id' [VStr e]].
Proof.
  unfold listify_entries. intros H Hje. rewrite Hje in H. simpl in H.
  inversion H; subst; clear H. rewrite getg_setg_eq. by eexists.
Qed.

Lemma flagged_view_str sm s : flagged_view sm (VStr s) = VStr s.
Proof.
  unfold flagged_view. destruct sm; try done.
  by destruct (truthy _ && negb _).
Qed.

(** C3 (amended): after a successful resolution [JS_ENGINES] is a
    non-empty list; and when the bindings supply neither [JS_ENGINES] nor
    [JS_ENGINE] and the merged [NODE_JS] is a string [e], the final
    [JS_ENGINES] is [[[e]]] and the final [JS_ENGINE] is [[e]]. *)
Theorem js_engines_seeded P w em config st :
  apply_config P w em config (initial_state (rootpath P)) = Ret st →
  let merged := propagate_settings w config (initial_state (rootpath P)) in
  (∃ id items, getg st "JS_ENGINES" = VList id items ∧ items ≠ [])
  ∧ (made_by_exec config = true →
     ∀ e, truthy (getg merged "JS_ENGINES") = false →
          truthy (getg merged "JS_ENGINE") = false →
          getg merged "NODE_JS" = VStr e →
          ∃ id1 id2 id3,
            getg st "JS_ENGINES" = VList id1 [VList id2 [VStr e]]
            ∧ getg st "JS_ENGINE" = VList id3 [VStr e]).
Proof.
  intros Hrun merged. apply apply_config_inv in Hrun. fold merged in Hrun.
  split; [by apply (normalize_engines_nonempty _ _ _ _ Hrun) | ].
  intros Hexec e Hje Hj Hnode.
  apply normalize_inv in Hrun as (st1 & st2 & st3 & st4 & HA & HB & HC & HD & ->).
  rewrite !derive_version_suffix_frame by done.
  rewrite !(derive_cache_and_ports_frame _ _ _ _ _ HD) by done.
  destruct (derive_js_engines_seed _ _ _ HA Hje Hj Hnode) as [Hje1 Hj1].
  assert (getg st1 "NODE_JS" = VStr e) as Hnode1
    by (by rewrite (derive_js_engines_frame _ _ _ HA)).
  assert (∀ id xs, getg st1 "SPIDERMONKEY_ENGINE" = VList id xs → ∃ m, id = Cfg m)
    as Hcfg.
  { intros id xs Hsm. rewrite (derive_js_engines_frame _ _ _ HA) in Hsm by done.
    apply merged_list_from_config in Hsm;
      [ | unfold CONFIG_KEYS; repeat constructor | done].
    by apply (made_by_exec_lookup _ _ _ _ Hexec Hsm). }
  destruct (tweak_spidermonkey_seed _ _ _ _ HB Hcfg Hje1) as [id Hje2].
  assert (getg st2 "NODE_JS" = VStr e) as Hnode2.
  { rewrite (tweak_spidermonkey_frame _ _ _ HB), Hnode1 by done.
    apply flagged_view_str. }
  assert (getg st2 "JS_ENGINE" = VStr e) as Hj2.
  { rewrite (tweak_spidermonkey_frame _ _ _ HB), Hj1 by done.
    apply flagged_view_str. }
  apply listify_engines_inv in HC
    as (s1 & s2 & s3 & s4 & s5 & E1 & E2 & E3 & E4 & E5 & ->).
  rewrite !getg_setg_ne, !getg_listify by done.
  rewrite !(listify_entries_frame _ _ _ _ E5) by done.
  destruct (fix_listified_seed_scalar _ _ _ _ _ E1 ltac:(done) Hnode2 Hje2)
    as (a1 & b1 & Hs1).
  destruct (fix_listified_seed_list _ _ _ _ _ _ E2 ltac:(done) Hs1) as (a2 & b2 & Hs2).
  destruct (fix_listified_seed_list _ _ _ _ _ _ E3 ltac:(done) Hs2) as (a3 & b3 & Hs3).
  destruct (listify_entries_seed _ _ _ _ _ E4 Hs3) as (a4 & Hs4).
  exists a4, b3. rewrite Hs4.
  rewrite (listify_entries_frame _ _ _ _ E4) by done.
  rewrite (fix_listified_result _ _ _ E3).
  rewrite (fix_listified_frame _ _ _ _ E2) by done.
  rewrite (fix_listified_frame _ _ _ _ E1) by done.
  rewrite Hj2. simpl. by eexists.
Qed.

(** The minimal configuration: [NODE_JS = 'node'] and no engines. *)
Lemma js_engines_seeded_witness :
  apply_config Sample.install (Sample.world_of ∅ Sample.mandatory_text)
    Sample.config_path Sample.mandatory_config (initial_state Sample.root)
  = Ret (state_of (apply_config Sample.install
                     (Sample.world_of ∅ Sample.mandatory_text) Sample.config_path
                     Sample.mandatory_config (initial_state Sample.root)))
  ∧ made_by_exec Sample.mandatory_config = true
  ∧ ∃ id1 id2 id3,
      getg (state_of (apply_config Sample.install
                        (Sample.world_of ∅ Sample.mandatory_text) Sample.config_path
                        Sample.mandatory_config (initial_state Sample.root)))
        "JS_ENGINES" = VList id1 [VList id2 [VStr "node"]]
      ∧ getg (state_of (apply_config Sample.install
                          (Sample.world_of ∅ Sample.mandatory_text) Sample.config_path
                          Sample.mandatory_config (initial_state Sample.root)))
          "JS_ENGINE" = VList id3 [VStr "node"].
Proof.
  assert (apply_config Sample.install (Sample.world_of ∅ Sample.mandatory_text)
            Sample.config_path Sample.mandatory_config (initial_state Sample.root)
          = Ret (state_of (apply_config Sample.install
                             (Sample.world_of ∅ Sample.mandatory_text)
                             Sample.config_path Sample.mandatory_config
                             (initial_state Sample.root)))) as Hrun
    by (apply is_ret_state_of; vm_compute; reflexivity).
  assert (made_by_exec Sample.mandatory_config = true) as Hexec
    by (vm_compute; reflexivity).
  split; [exact Hrun | split; [exact Hexec | ]].
  refine (proj2 (js_engines_seeded Sample.install _ Sample.config_path
                   Sample.mandatory_config _ Hrun) Hexec "node" _ _ _);
    vm_compute; reflexivity.
Defined.

(** C3 as stated fails when the primary engine is a command with
    arguments: with [NODE_JS = E = ['node', '--stack-size=1024']] and no
    engines given, the final [JS_ENGINES] is [[E]], which is not [[[E]]],
    and the final [JS_ENGINE] is [E], which is not [[E]].  It also fails
    when the active engine is given: with [NODE_JS = 'node'],
    [JS_ENGINE = 'd8'] and no [JS_ENGINES], the final [JS_ENGINE] is
    [['d8']], not [['node']]. *)
Lemma list_valued_node_not_wrapped :
  (Sample.node_list_config !! "JS_ENGINES" = None
   ∧ Sample.node_list_config !! "JS_ENGINE" = None
   ∧ Sample.node_list_config !! "NODE_JS"
     = Some (VList (Cfg 0) [VStr "node"; VStr "--stack-size=1024"])
   ∧ resolves Sample.install (Sample.world_of ∅ Sample.node_list_text) ["emcc"] = true
   ∧ final_value Sample.install (Sample.world_of ∅ Sample.node_list_text) ["emcc"]
       "JS_ENGINES"
     = VList (Mod 4) [VList (Cfg 0) [VStr "node"; VStr "--stack-size=1024"]]
   ∧ final_value Sample.install (Sample.world_of ∅ Sample.node_list_text) ["emcc"]
       "JS_ENGINE"
     = VList (Cfg 0) [VStr "node"; VStr "--stack-size=1024"]
   ∧ py_eq (final_value Sample.install (Sample.world_of ∅ Sample.node_list_text)
              ["emcc"] "JS_ENGINES")
           (VList (Mod 0) [VList (Mod 0)
              [VList (Cfg 0) [VStr "node"; VStr "--stack-size=1024"]]]) = false
   ∧ py_eq (final_value Sample.install (Sample.world_of ∅ Sample.node_list_text)
              ["emcc"] "JS_ENGINE")
           (VList (Mod 0) [VList (Cfg 0) [VStr "node"; VStr "--stack-size=1024"]])
     = false)
  ∧ (Sample.d8_config !! "JS_ENGINES" = None
     ∧ Sample.d8_config !! "NODE_JS" = Some (VStr "node")
     ∧ resolves Sample.install (Sample.world_of ∅ Sample.d8_text) ["emcc"] = true
     ∧ final_value Sample.install (Sample.world_of ∅ Sample.d8_text) ["emcc"]
         "JS_ENGINE"
       = VList (Mod 4) [VStr "d8"]
     ∧ py_eq (final_value Sample.install (Sample.world_of ∅ Sample.d8_text) ["emcc"]
                "JS_ENGINE")
             (VList (Mod 0) [VStr "node"]) = false).
Proof.
  split.
  - split; [vm_compute; reflexivity | ]. split; [vm_compute; reflexivity | ].
    split; [vm_compute; reflexivity | ]. split; [vm_compute; reflexivity | ].
    split; [vm_compute; reflexivity | ]. split; [vm_compute; reflexivity | ].
    split; vm_compute; reflexivity.
  - split; [vm_compute; reflexivity | ]. split; [vm_compute; reflexivity | ].
    split; [vm_compute; reflexivity | ].
    split; vm_compute; reflexivity.
Qed.

(** ** Spidermonkey *)

(** C4 (the code at the failing input): the source gives Spidermonkey as
    [['js']] and lists the same command, written out again, in
    [JS_ENGINES].  The flag is added to the [SPIDERMONKEY_ENGINE] object in
    place, so [fix_js_engine] is called with that one object as [old] and
    as [new] and looks for the flagged command: the entry [['js']] of
    [JS_ENGINES] is left without the flag.  Besides, the test for the flag
    looks for the characters [-w] in the printed list: for
    [['js', '--wasm-compiler=baseline']] no flag is added at all; and
    Spidermonkey given as the string ['js'] ends the run in a [TypeError]. *)
Theorem spidermonkey_copy_left_unflagged :
  ((∀ w argv, ev_result (py_exec Sample.install w argv Sample.spidermonkey_text)
              = Bound Sample.spidermonkey_config)
   ∧ str_contains "-w" (py_str (VList (Cfg 0) [VStr "js"])) = false
   ∧ resolves Sample.install (Sample.world_of ∅ Sample.spidermonkey_text) ["emcc"]
     = true
   ∧ final_value Sample.install (Sample.world_of ∅ Sample.spidermonkey_text) ["emcc"]
       "SPIDERMONKEY_ENGINE"
     = VList (Cfg 0) [VStr "js"; VStr "-w"]
   ∧ final_value Sample.install (Sample.world_of ∅ Sample.spidermonkey_text) ["emcc"]
       "JS_ENGINES"
     = VList (Mod 5) [VList (Cfg 1) [VStr "node"]; VList (Cfg 2) [VStr "js"]])
  ∧ ((∀ w argv, ev_result (py_exec Sample.install w argv Sample.wasm_text)
                = Bound Sample.wasm_config)
     ∧ resolves Sample.install (Sample.world_of ∅ Sample.wasm_text) ["emcc"] = true
     ∧ final_value Sample.install (Sample.world_of ∅ Sample.wasm_text) ["emcc"]
         "SPIDERMONKEY_ENGINE"
       = VList (Cfg 0) [VStr "js"; VStr "--wasm-compiler=baseline"])
  ∧ ((∀ w argv, ev_result (py_exec Sample.install w argv Sample.bare_text)
                = Bound Sample.bare_config)
     ∧ res_outcome (load_module Sample.install
                      (Sample.world_of ∅ Sample.bare_text) ["emcc"])
       = Raised TypeError).
Proof.
  split; [ | split].
  - split; [intros w argv; reflexivity | ]. split; [vm_compute; reflexivity | ].
    split; [vm_compute; reflexivity | ].
    split; vm_compute; reflexivity.
  - split; [intros w argv; reflexivity | ].
    split; vm_compute; reflexivity.
  - split; [intros w argv; reflexivity | vm_compute; reflexivity].
Qed.

(** C5 (the code at the failing input): the source gives Spidermonkey as
    the single string ['js -w'].  Lines 74-79 wrap the other engine keys in
    a list; lines 69-73 do not, and the final [SPIDERMONKEY_ENGINE] is
    still the bare string.  The same happens when the string comes from
    the override [EM_SPIDERMONKEY_ENGINE]. *)
Theorem spidermonkey_string_left_bare :
  ((∀ w argv, ev_result (py_exec Sample.install w argv Sample.flagged_text)
              = Bound Sample.flagged_config)
   ∧ resolves Sample.install (Sample.world_of ∅ Sample.flagged_text) ["emcc"] = true
   ∧ final_value Sample.install (Sample.world_of ∅ Sample.flagged_text) ["emcc"]
       "SPIDERMONKEY_ENGINE"
     = VStr "js -w"
   ∧ final_value Sample.install (Sample.world_of ∅ Sample.flagged_text) ["emcc"]
       "NODE_JS"
     = VList (Mod 3) [VStr "node"])
  ∧ (resolves Sample.install
       (Sample.world_of {[ "EM_SPIDERMONKEY_ENGINE" := "/usr/bin/js -w" ]}
          Sample.mandatory_text) ["emcc"] = true
     ∧ final_value Sample.install
         (Sample.world_of {[ "EM_SPIDERMONKEY_ENGINE" := "/usr/bin/js -w" ]}
            Sample.mandatory_text) ["emcc"] "SPIDERMONKEY_ENGINE"
       = VStr "/usr/bin/js -w").
Proof.
  split.
  - split; [intros w argv; reflexivity | ]. split; [vm_compute; reflexivity | ].
    split; vm_compute; reflexivity.
  - split; vm_compute; reflexivity.
Qed.

(** ** The source locator *)

Lemma index_of_first x pre rest :
  x ∉ pre → index_of x (pre ++ x :: rest)%list = Some (List.length pre).
Proof.
  induction pre as [ | y pre IH]; simpl; intros Hnot.
  - by rewrite String.eqb_refl.
  - apply not_elem_of_cons in Hnot as [Hne Hnot].
    destruct (String.eqb_spec y x) as [-> | _]; [done | ].
    by rewrite IH.
Qed.

Lemma index_of_absent x l : x ∉ l → index_of x l = None.
Proof.
  induction l as [ | y l IH]; simpl; intros Hnot; [done | ].
  apply not_elem_of_cons in Hnot as [Hne Hnot].
  destruct (String.eqb_spec y x) as [-> | _]; [done | ].
  by rewrite IH.
Qed.

Lemma delete_flag_and_value (pre : list string) x v post :
  delete (List.length pre) (delete (List.length pre + 1)%nat (pre ++ x :: v :: post)%list)
  = (pre ++ post)%list.
Proof.
  induction pre as [ | y pre IH]; simpl; [done | ].
  f_equal. exact IH.
Qed.

Lemma lookup_flag_value (pre : list string) x v post :
  (pre ++ x :: v :: post)%list !! (List.length pre + 1)%nat = Some v.
Proof. induction pre as [ | y pre IH]; simpl; [done | exact IH]. Qed.

(** C6: the locator yields one path.  When [--em-config] occurs in the
    arguments, the value after its first occurrence is the path, and both
    are taken out of the argument list; when nothing follows it, the run
    ends in [exit_with_error] with the usage message.  Without the flag the
    path is [EM_CONFIG] from the environment when set; else the first
    existing one of the root-adjacent path, the path two levels above the
    root and the home-directory path; else the root-adjacent path when the
    root is writable and the home-directory path when it is not. *)
Theorem locate_config_order P w argv :
  (∀ pre v post,
     "--em-config" ∉ pre → argv = (pre ++ "--em-config" :: v :: post)%list →
     locate_config P w argv = Ret (v, (pre ++ post)%list))
  ∧ (∀ pre,
       "--em-config" ∉ pre → argv = (pre ++ ["--em-config"])%list →
       locate_config P w argv = Fatal "--em-config must be followed by a filename")
  ∧ ("--em-config" ∉ argv →
       (∀ v, environ w !! "EM_CONFIG" = Some v → locate_config P w argv = Ret (v, argv))
       ∧ (environ w !! "EM_CONFIG" = None →
            (path_exists w (embedded_config P) = true →
             locate_config P w argv = Ret (embedded_config P, argv))
            ∧ (path_exists w (embedded_config P) = false →
                 (path_exists w (emsdk_embedded_config P) = true →
                  locate_config P w argv = Ret (emsdk_embedded_config P, argv))
                 ∧ (path_exists w (emsdk_embedded_config P) = false →
                      (path_exists w (user_home_config P w) = true →
                       locate_config P w argv = Ret (user_home_config P w, argv))
                      ∧ (path_exists w (user_home_config P w) = false →
                           locate_config P w argv
                           = Ret (if root_is_writable w then embedded_config P
                                  else user_home_config P w, argv)))))).
Proof.
  split; [ | split].
  - intros pre v post Hnot ->. unfold locate_config.
    rewrite index_of_first by done.
    rewrite length_app. simpl.
    destruct (Nat.leb_spec (List.length pre + S (S (List.length post)))
                           (List.length pre + 1)) as [Hle | _]; [lia | ].
    by rewrite lookup_flag_value, delete_flag_and_value.
  - intros pre Hnot ->. unfold locate_config.
    rewrite index_of_first by done.
    rewrite length_app. simpl.
    by destruct (Nat.leb_spec (List.length pre + 1) (List.length pre + 1)) as [_ | Hlt];
      [ | lia].
  - intros Hnot. unfold locate_config. rewrite index_of_absent by done.
    split; [by intros v -> | ]. intros ->.
    split; [by intros -> | ]. intros ->.
    split; [by intros -> | ]. intros ->.
    split; [by intros -> | ]. intros ->.
    by destruct (root_is_writable w).
Qed.

(** [emcc --em-config /cfg/emscripten.py -O2 a.c]. *)
Lemma locate_config_order_witness :
  ("--em-config" ∉ ["emcc"])
  ∧ locate_config Sample.install (Sample.world_of ∅ Sample.mandatory_text)
      ["emcc"; "--em-config"; "/cfg/emscripten.py"; "-O2"; "a.c"]
    = Ret ("/cfg/emscripten.py", ["emcc"; "-O2"; "a.c"]).
Proof.
  assert ("--em-config" ∉ ["emcc"]) as Hnot.
  { apply not_elem_of_cons. split; [discriminate | apply not_elem_of_nil]. }
  split; [exact Hnot | ].
  exact (proj1 (locate_config_order Sample.install
                  (Sample.world_of ∅ Sample.mandatory_text)
                  ["emcc"; "--em-config"; "/cfg/emscripten.py"; "-O2"; "a.c"])
           ["emcc"] "/cfg/emscripten.py" ["-O2"; "a.c"] Hnot eq_refl).
Defined.

(** ** The generator *)

Lemma generate_config_exists P w path :
  path_exists w path = true →
  generate_config P w path = Fatal ("config file already exists: `" ++ path ++ "`").
Proof. intros H. unfold generate_config. by rewrite H. Qed.

Lemma generate_config_fresh P w path template :
  path_exists w path = false →
  files w !! path_from_root P ["tools/config_template.py"] = Some template →
  generate_config P w path = Ret (write_file path (fill_template P w template) w).
Proof.
  intros H Ht. unfold generate_config, read_file. by rewrite H, Ht.
Qed.

(** C9 (amended): at a path where a file exists the generator ends in
    [exit_with_error] and writes nothing.  When the locator succeeds and
    leaves [--generate-config] among the arguments, and the located path
    has no newline, a run of the module with a file at the target ends
    fatally with the world unchanged, and a run with no file at the target
    and a readable template writes the filled-in template there, changes
    nothing else, and exits with status 0. *)
Theorem generate_config_guarded P w argv em argv' :
  (∀ path, path_exists w path = true →
     generate_config P w path = Fatal ("config file already exists: `" ++ path ++ "`"))
  ∧ (locate_config P w argv = Ret (em, argv') →
     str_contains newline em = false → "--generate-config" ∈ argv' →
     (path_exists w (expanduser P (home w) em) = true →
      res_outcome (load_module P w argv)
      = Fatal ("config file already exists: `" ++ expanduser P (home w) em ++ "`")
      ∧ res_world (load_module P w argv) = w)
     ∧ (path_exists w (expanduser P (home w) em) = false →
        ∀ template,
          files w !! path_from_root P ["tools/config_template.py"] = Some template →
          res_outcome (load_module P w argv) = Exited 0
          ∧ exit_status (res_outcome (load_module P w argv)) = Some 0
          ∧ res_world (load_module P w argv)
            = write_file (expanduser P (home w) em) (fill_template P w template) w
          ∧ files (res_world (load_module P w argv)) !! expanduser P (home w) em
            = Some (fill_template P w template))).
Proof.
  split; [intros path; apply generate_config_exists | ].
  intros Hloc Hnl Hflag. unfold load_module. rewrite Hloc, Hnl.
  rewrite (bool_decide_eq_true_2 _ Hflag).
  split.
  - intros Hex. by rewrite generate_config_exists.
  - intros Hex template Ht.
    rewrite (generate_config_fresh P w _ template Hex Ht).
    simpl. repeat split. apply lookup_insert_eq.
Qed.

(** C9 as stated fails, also where no file exists at the target.
    [--generate-config] is given in each of three runs; none of them
    writes a file or exits with status 0.  In the first, [--em-config] is
    the last argument, and the locator ends the run with the usage error.
    In the second, [EM_CONFIG] holds configuration text with a newline,
    which line 261 rejects before the generator is reached.  In the third,
    the installation has no template, and reading it raises. *)
Lemma generate_flag_without_new_file :
  ("--generate-config" ∈ ["emcc"; "--generate-config"; "--em-config"]
   ∧ files Sample.fresh_world = {[ Sample.template_path := Sample.template ]}
   ∧ res_outcome (load_module Sample.install Sample.fresh_world
                    ["emcc"; "--generate-config"; "--em-config"])
     = Fatal "--em-config must be followed by a filename"
   ∧ exit_status (res_outcome (load_module Sample.install Sample.fresh_world
                                 ["emcc"; "--generate-config"; "--em-config"]))
     ≠ Some 0
   ∧ res_world (load_module Sample.install Sample.fresh_world
                  ["emcc"; "--generate-config"; "--em-config"])
     = Sample.fresh_world)
  ∧ ("--generate-config" ∈ ["emcc"; "--generate-config"]
     ∧ locate_config Sample.install
         (set_environ "EM_CONFIG" Sample.inline_config Sample.fresh_world)
         ["emcc"; "--generate-config"]
       = Ret (Sample.inline_config, ["emcc"; "--generate-config"])
     ∧ path_exists (set_environ "EM_CONFIG" Sample.inline_config Sample.fresh_world)
         (expanduser Sample.install None Sample.inline_config) = false
     ∧ res_outcome (load_module Sample.install
                      (set_environ "EM_CONFIG" Sample.inline_config Sample.fresh_world)
                      ["emcc"; "--generate-config"])
       = Fatal "Inline EM_CONFIG data no longer supported.  Please use a config file."
     ∧ exit_status (res_outcome
                      (load_module Sample.install
                         (set_environ "EM_CONFIG" Sample.inline_config Sample.fresh_world)
                         ["emcc"; "--generate-config"]))
       ≠ Some 0
     ∧ res_world (load_module Sample.install
                    (set_environ "EM_CONFIG" Sample.inline_config Sample.fresh_world)
                    ["emcc"; "--generate-config"])
       = set_environ "EM_CONFIG" Sample.inline_config Sample.fresh_world)
  ∧ (locate_config Sample.install Sample.empty_world ["emcc"; "--generate-config"]
     = Ret (Sample.config_path, ["emcc"; "--generate-config"])
     ∧ str_contains newline Sample.config_path = false
     ∧ path_exists Sample.empty_world
         (expanduser Sample.install None Sample.config_path) = false
     ∧ res_outcome (load_module Sample.install Sample.empty_world
                      ["emcc"; "--generate-config"])
       = Raised FileNotFoundError
     ∧ exit_status (res_outcome (load_module Sample.install Sample.empty_world
                                   ["emcc"; "--generate-config"]))
       ≠ Some 0
     ∧ res_world (load_module Sample.install Sample.empty_world
                    ["emcc"; "--generate-config"])
       = Sample.empty_world).
Proof.
  split; [ | split].
  - split; [repeat constructor | ]. split; [reflexivity | ].
    split; [vm_compute; reflexivity | ]. split; [vm_compute; discriminate | ].
    vm_compute; reflexivity.
  - split; [repeat constructor | ]. split; [vm_compute; reflexivity | ].
    split; [vm_compute; reflexivity | ]. split; [vm_compute; reflexivity | ].
    split; [vm_compute; discriminate | ]. vm_compute; reflexivity.
  - split; [vm_compute; reflexivity | ]. split; [vm_compute; reflexivity | ].
    split; [vm_compute; reflexivity | ]. split; [vm_compute; reflexivity | ].
    split; [vm_compute; discriminate | ]. vm_compute; reflexivity.
Qed.

(** On a new installation [emcc --generate-config] writes the
    configuration next to the root and exits with status 0. *)
Lemma generate_config_guarded_witness :
  locate_config Sample.install Sample.fresh_world ["emcc"; "--generate-config"]
  = Ret (Sample.config_path, ["emcc"; "--generate-config"])
  ∧ str_contains newline Sample.config_path = false
  ∧ "--generate-config" ∈ ["emcc"; "--generate-config"]
  ∧ path_exists Sample.fresh_world
      (expanduser Sample.install (home Sample.fresh_world) Sample.config_path) = false
  ∧ res_outcome (load_module Sample.install Sample.fresh_world
                   ["emcc"; "--generate-config"]) = Exited 0
  ∧ files (res_world (load_module Sample.install Sample.fresh_world
                        ["emcc"; "--generate-config"]))
      !! expanduser Sample.install (home Sample.fresh_world) Sample.config_path
    = Some (String.concat newline
              [ "EMSCRIPTEN_ROOT = '/emsdk/upstream/emscripten' # directory";
                "LLVM_ROOT = '/usr/bin' # directory";
                "NODE_JS = 'node' # executable" ]).
Proof.
  assert (locate_config Sample.install Sample.fresh_world ["emcc"; "--generate-config"]
          = Ret (Sample.config_path, ["emcc"; "--generate-config"])) as Hloc
    by (vm_compute; reflexivity).
  assert (str_contains newline Sample.config_path = false) as Hnl
    by (vm_compute; reflexivity).
  assert ("--generate-config" ∈ ["emcc"; "--generate-config"]) as Hflag
    by (repeat constructor).
  assert (path_exists Sample.fresh_world
            (expanduser Sample.install (home Sample.fresh_world) Sample.config_path)
          = false) as Hex by (vm_compute; reflexivity).
  assert (files Sample.fresh_world
            !! path_from_root Sample.install ["tools/config_template.py"]
          = Some Sample.template) as Ht by (vm_compute; reflexivity).
  split; [exact Hloc | split; [exact Hnl | split; [exact Hflag | split; [exact Hex | ]]]].
  destruct (proj2 (proj2 (generate_config_guarded Sample.install Sample.fresh_world
                            ["emcc"; "--generate-config"] Sample.config_path
                            ["emcc"; "--generate-config"]) Hloc Hnl Hflag)
              Hex Sample.template Ht) as (Hout & _ & _ & Hfile).
  split; [exact Hout | ].
  refine (eq_trans Hfile _). vm_compute; reflexivity.
Defined.

(** ** Resolution depends on what it reads, and on nothing else *)






(** The run of [parse_config_file] on a text without side effects. *)
Lemma parse_quiet_source P w argv em st text :
  files w !! em = Some text → quiet_source P text →
  parse_config_file P w argv em st
  = stopped
      match ev_result (py_exec P w argv text) with
      | Failed e =>
          exit_with_error ("Error in evaluating config file (" ++ em ++ "): "
                           ++ e ++ ", text: " ++ text)
      | Quit status => Exited status
      | Bound config => apply_config P w em config st
      end w argv.
Proof.
  intros Hfile Hquiet. unfold parse_config_file, read_file. rewrite Hfile.
  destruct (Hquiet w argv) as [-> ->]. done.
Qed.


Lemma parse_config_file_argv P w argv em st :
  (∀ text, files w !! em = Some text → quiet_source P text) →
  res_argv (parse_config_file P w argv em st) = argv
  ∧ res_world (parse_config_file P w argv em st) = w.
Proof.
  intros Hquiet. destruct (files w !! em) as [text | ] eqn:H1.
  - by rewrite (parse_quiet_source P w argv em st text H1 (Hquiet text eq_refl)).
  - unfold parse_config_file, read_file. by rewrite H1.
Qed.




Lemma same_view_refl P argv w : same_view P argv w w.
Proof. by repeat split. Qed.



(** Every text of the sample installation but the stamped one only binds
    names. *)
Lemma sample_plain_source text :
  text ≠ Sample.stamped_text → plain_source Sample.install text.
Proof.
  intros Hne. split; [by intros w argv | ].
  intros w1 argv1 w2 argv2. simpl.
  by destruct (String.eqb_spec text Sample.stamped_text).
Qed.



(** * Further properties of the module *)

(** ** What normalization leaves alone *)

Lemma flagged_view_not_list sm v : is_list v = false → flagged_view sm v = v.
Proof.
  intros Hv. unfold flagged_view. destruct sm; try done.
  destruct (truthy _ && negb _); [ | done]. by destruct v.
Qed.

(** A global that lines 58-99 never assign and that holds no list is the
    same after normalization. *)
Lemma normalize_frame P w st st' key :
  normalize_config_settings P w st = Ret st' →
  key ∉ ENGINE_KEYS → key ≠ "SPIDERMONKEY_ENGINE" → key ≠ "CACHE" → key ≠ "PORTS" →
  key ≠ "LLVM_ADD_VERSION" → key ≠ "CLANG_ADD_VERSION" →
  is_list (getg st key) = false → getg st' key = getg st key.
Proof.
  intros H Heng Hsm Hc Hp Hl Hcl Hv.
  apply normalize_inv in H as (st1 & st2 & st3 & st4 & HA & HB & HC & HD & ->).
  rewrite !derive_version_suffix_frame by done.
  rewrite (derive_cache_and_ports_frame _ _ _ _ _ HD) by done.
  rewrite (engine_blocks_frame _ _ _ _ key HA HB HC) by done.
  by apply flagged_view_not_list.
Qed.

(** X1: normalization passes the plain keys through: when the value of
    [LLVM_ROOT], [BINARYEN_ROOT], [JAVA], [WASMER], [WASMTIME],
    [FROZEN_CACHE] or [COMPILER_WRAPPER] is not a list, a successful
    [normalize_config_settings] ends with the very same value. *)
Theorem plain_keys_pass_through P w st st' key :
  normalize_config_settings P w st = Ret st' →
  key ∈ PLAIN_KEYS → is_list (getg st key) = false →
  getg st' key = getg st key.
Proof.
  intros H Hin Hv. unfold PLAIN_KEYS in Hin.
  split_keys Hin; by apply (normalize_frame _ _ _ _ _ H); try not_in_keys.
Qed.

Lemma plain_keys_pass_through_witness :
  normalize_config_settings Sample.install (Sample.world_of ∅ Sample.mandatory_text)
    (propagate_settings (Sample.world_of ∅ Sample.mandatory_text)
       Sample.mandatory_config (initial_state Sample.root))
  = Ret (state_of (normalize_config_settings Sample.install
                     (Sample.world_of ∅ Sample.mandatory_text)
                     (propagate_settings (Sample.world_of ∅ Sample.mandatory_text)
                        Sample.mandatory_config (initial_state Sample.root))))
  ∧ "LLVM_ROOT" ∈ PLAIN_KEYS
  ∧ getg (state_of (normalize_config_settings Sample.install
                      (Sample.world_of ∅ Sample.mandatory_text)
                      (propagate_settings (Sample.world_of ∅ Sample.mandatory_text)
                         Sample.mandatory_config (initial_state Sample.root))))
      "LLVM_ROOT" = VStr "/usr/bin".
Proof.
  assert (normalize_config_settings Sample.install
            (Sample.world_of ∅ Sample.mandatory_text)
            (propagate_settings (Sample.world_of ∅ Sample.mandatory_text)
               Sample.mandatory_config (initial_state Sample.root))
          = Ret (state_of (normalize_config_settings Sample.install
                             (Sample.world_of ∅ Sample.mandatory_text)
                             (propagate_settings
                                (Sample.world_of ∅ Sample.mandatory_text)
                                Sample.mandatory_config (initial_state Sample.root)))))
    as Hrun by (apply is_ret_state_of; vm_compute; reflexivity).
  assert ("LLVM_ROOT" ∈ PLAIN_KEYS) as Hin by (unfold PLAIN_KEYS; repeat constructor).
  split; [exact Hrun | split; [exact Hin | ]].
  refine (eq_trans (plain_keys_pass_through _ _ _ _ "LLVM_ROOT" Hrun Hin _) _);
    vm_compute; reflexivity.
Defined.

(** X2: only the names of [CONFIG_KEYS] are taken from the evaluated
    bindings and from the environment: any other module global that holds
    no list, [EMSCRIPTEN_ROOT] among them, has after a successful run of
    lines 114-169 the value it had before, whatever the source binds and
    whatever [EM_] variables are set. *)
Theorem unrecognized_names_ignored P w em config st0 st key :
  apply_config P w em config st0 = Ret st →
  key ∉ CONFIG_KEYS → is_list (getg st0 key) = false →
  getg (propagate_settings w config st0) key = getg st0 key
  ∧ getg st key = getg st0 key.
Proof.
  intros Hrun Hnot Hv.
  assert (getg (propagate_settings w config st0) key = getg st0 key) as Hmerged.
  { unfold propagate_settings. rewrite propagate_loop_lookup.
    by rewrite bool_decide_eq_false_2. }
  split; [done | ].
  apply apply_config_inv in Hrun. rewrite <- Hmerged.
  unfold CONFIG_KEYS in Hnot. rewrite !not_elem_of_cons in Hnot.
  destruct Hnot as (? & ? & ? & ? & ? & ? & ? & ? & ? & ? & ? & ? & ? & ? & ? & ? & ? & ? & _).
  apply (normalize_frame _ _ _ _ _ Hrun); try done; [not_in_keys | by rewrite Hmerged].
Qed.

(** A source that binds [EMSCRIPTEN_ROOT] does not move the root. *)
Lemma unrecognized_names_ignored_witness :
  apply_config Sample.install (Sample.world_of {[ "EM_EMSCRIPTEN_ROOT" := "/env" ]} "")
    Sample.config_path (<["EMSCRIPTEN_ROOT" := VStr "/elsewhere"]> Sample.mandatory_config)
    (initial_state Sample.root)
  = Ret (state_of (apply_config Sample.install
                     (Sample.world_of {[ "EM_EMSCRIPTEN_ROOT" := "/env" ]} "")
                     Sample.config_path
                     (<["EMSCRIPTEN_ROOT" := VStr "/elsewhere"]> Sample.mandatory_config)
                     (initial_state Sample.root)))
  ∧ ("EMSCRIPTEN_ROOT" ∉ CONFIG_KEYS)
  ∧ getg (state_of (apply_config Sample.install
                      (Sample.world_of {[ "EM_EMSCRIPTEN_ROOT" := "/env" ]} "")
                      Sample.config_path
                      (<["EMSCRIPTEN_ROOT" := VStr "/elsewhere"]> Sample.mandatory_config)
                      (initial_state Sample.root))) "EMSCRIPTEN_ROOT"
    = VStr Sample.root.
Proof.
  assert (apply_config Sample.install
            (Sample.world_of {[ "EM_EMSCRIPTEN_ROOT" := "/env" ]} "")
            Sample.config_path
            (<["EMSCRIPTEN_ROOT" := VStr "/elsewhere"]> Sample.mandatory_config)
            (initial_state Sample.root)
          = Ret (state_of (apply_config Sample.install
                             (Sample.world_of {[ "EM_EMSCRIPTEN_ROOT" := "/env" ]} "")
                             Sample.config_path
                             (<["EMSCRIPTEN_ROOT" := VStr "/elsewhere"]>
                                Sample.mandatory_config)
                             (initial_state Sample.root)))) as Hrun
    by (apply is_ret_state_of; vm_compute; reflexivity).
  assert ("EMSCRIPTEN_ROOT" ∉ CONFIG_KEYS) as Hnot
    by (apply (bool_decide_unpack _); vm_compute; exact I).
  split; [exact Hrun | split; [exact Hnot | ]].
  refine (eq_trans (proj2 (unrecognized_names_ignored _ _ _ _ _ _ "EMSCRIPTEN_ROOT"
                             Hrun Hnot _)) _);
    vm_compute; reflexivity.
Defined.

(** ** The check after the mandatory keys *)

(** X3: the test of [NODE_JS] on lines 166-167 never fires: lines 114-169
    behave as the override loop, the loop over the mandatory keys and
    [normalize_config_settings], one after the other. *)
Theorem node_js_recheck_unreachable P w em config st0 :
  apply_config P w em config st0
  = (_ <- check_mandatory em config (propagate_settings w config st0) MANDATORY_KEYS ;;
     normalize_config_settings P w (propagate_settings w config st0)).
Proof.
  unfold apply_config.
  destruct (check_mandatory_spec em config (propagate_settings w config st0)
              MANDATORY_KEYS) as [[Hok Hall] | (key & Hin & [[_ Hbad] | [_ Hbad]])].
  - rewrite Hok. simpl.
    destruct (Hall "NODE_JS") as [_ ->]; [ | done].
    unfold MANDATORY_KEYS. apply list_elem_of_further, list_elem_of_here.
  - by rewrite Hbad.
  - by rewrite Hbad.
Qed.

(** ** The shape of the engine keys *)

Lemma none_or_list_listify x st : none_or_list (listify x st).1 = true.
Proof. by destruct x. Qed.

Lemma none_or_list_listify_each items st :
  Forall (λ x, none_or_list x = true) (listify_each items st).1.
Proof.
  revert st. induction items as [ | x rest IH]; intros st; simpl; [constructor | ].
  pose proof (none_or_list_listify x st) as Hx.
  destruct (listify x st) as [x' st1]. specialize (IH st1).
  destruct (listify_each rest st1) as [rest' st2]. simpl in *.
  by constructor.
Qed.

Lemma listify_entries_shape key st st' :
  listify_entries key st = Ret st' →
  ∃ id items, getg st' key = VList id items
              ∧ Forall (λ x, none_or_list x = true) items.
Proof.
  unfold listify_entries. intros H.
  destruct (iterate (getg st key)) as [items | ]; [ | discriminate].
  pose proof (none_or_list_listify_each items st) as Hall.
  destruct (listify_each items st) as [items' s1]. simpl in *.
  inversion H; subst; clear H. rewrite getg_setg_eq. by eexists _, _.
Qed.

(** X4: after a successful [normalize_config_settings], each of [NODE_JS],
    [V8_ENGINE], [JS_ENGINE] and [CLOSURE_COMPILER] is [None] or a list,
    and [JS_ENGINES] and [WASM_ENGINES] are lists whose entries are each
    [None] or a list. *)
Theorem engines_listified P w st st' :
  normalize_config_settings P w st = Ret st' →
  (∀ key, key ∈ LISTIFIED_KEYS → none_or_list (getg st' key) = true)
  ∧ (∀ key, key = "JS_ENGINES" ∨ key = "WASM_ENGINES" →
       ∃ id items, getg st' key = VList id items
                   ∧ Forall (λ x, none_or_list x = true) items).
Proof.
  intros H.
  apply normalize_inv in H as (st1 & st2 & st3 & st4 & HA & HB & HC & HD & ->).
  apply listify_engines_inv in HC
    as (s1 & s2 & s3 & s4 & s5 & E1 & E2 & E3 & E4 & E5 & ->).
  split.
  - intros key Hin. unfold LISTIFIED_KEYS in Hin.
    split_keys Hin;
      rewrite !derive_version_suffix_frame by done;
      rewrite (derive_cache_and_ports_frame _ _ _ _ _ HD) by done.
    + rewrite getg_setg_ne, getg_listify by done.
      rewrite (listify_entries_frame _ _ _ _ E5) by done.
      rewrite (listify_entries_frame _ _ _ _ E4) by done.
      rewrite (fix_listified_frame _ _ _ _ E3) by done.
      rewrite (fix_listified_frame _ _ _ _ E2) by done.
      rewrite (fix_listified_result _ _ _ E1). apply none_or_list_listify.
    + rewrite getg_setg_ne, getg_listify by done.
      rewrite (listify_entries_frame _ _ _ _ E5) by done.
      rewrite (listify_entries_frame _ _ _ _ E4) by done.
      rewrite (fix_listified_frame _ _ _ _ E3) by done.
      rewrite (fix_listified_result _ _ _ E2). apply none_or_list_listify.
    + rewrite getg_setg_ne, getg_listify by done.
      rewrite (listify_entries_frame _ _ _ _ E5) by done.
      rewrite (listify_entries_frame _ _ _ _ E4) by done.
      rewrite (fix_listified_result _ _ _ E3). apply none_or_list_listify.
    + rewrite getg_setg_eq. apply none_or_list_listify.
  - intros key [-> | ->];
      rewrite !derive_version_suffix_frame by done;
      rewrite (derive_cache_and_ports_frame _ _ _ _ _ HD) by done;
      rewrite getg_setg_ne, getg_listify by done.
    + rewrite (listify_entries_frame _ _ _ _ E5) by done.
      apply (listify_entries_shape _ _ _ E4).
    + apply (listify_entries_shape _ _ _ E5).
Qed.

Lemma engines_listified_witness :
  normalize_config_settings Sample.install (Sample.world_of ∅ Sample.d8_text)
    (propagate_settings (Sample.world_of ∅ Sample.d8_text)
       Sample.d8_config (initial_state Sample.root))
  = Ret (state_of (normalize_config_settings Sample.install
                     (Sample.world_of ∅ Sample.d8_text)
                     (propagate_settings (Sample.world_of ∅ Sample.d8_text)
                        Sample.d8_config (initial_state Sample.root))))
  ∧ none_or_list
      (getg (state_of (normalize_config_settings Sample.install
                         (Sample.world_of ∅ Sample.d8_text)
                         (propagate_settings (Sample.world_of ∅ Sample.d8_text)
                            Sample.d8_config (initial_state Sample.root))))
         "JS_ENGINE") = true.
Proof.
  assert (normalize_config_settings Sample.install (Sample.world_of ∅ Sample.d8_text)
            (propagate_settings (Sample.world_of ∅ Sample.d8_text)
               Sample.d8_config (initial_state Sample.root))
          = Ret (state_of (normalize_config_settings Sample.install
                             (Sample.world_of ∅ Sample.d8_text)
                             (propagate_settings (Sample.world_of ∅ Sample.d8_text)
                                Sample.d8_config (initial_state Sample.root)))))
    as Hrun by (apply is_ret_state_of; vm_compute; reflexivity).
  split; [exact Hrun | ].
  apply (proj1 (engines_listified _ _ _ _ Hrun) "JS_ENGINE").
  unfold LISTIFIED_KEYS. repeat constructor.
Defined.

(** ** Overrides that end the run *)

Lemma normalize_needs_wasm_engines P w st st' :
  normalize_config_settings P w st = Ret st' → getg st "WASM_ENGINES" ≠ VNone.
Proof.
  intros H Hnone.
  apply normalize_inv in H as (st1 & st2 & st3 & st4 & HA & HB & HC & HD & _).
  apply listify_engines_inv in HC
    as (s1 & s2 & s3 & s4 & s5 & E1 & E2 & E3 & E4 & E5 & _).
  unfold listify_entries in E5.
  assert (getg s4 "WASM_ENGINES" = VNone) as Hw.
  { rewrite (listify_entries_frame _ _ _ _ E4) by done.
    rewrite (fix_listified_frame _ _ _ _ E3) by done.
    rewrite (fix_listified_frame _ _ _ _ E2) by done.
    rewrite (fix_listified_frame _ _ _ _ E1) by done.
    rewrite (tweak_spidermonkey_frame _ _ _ HB) by done.
    rewrite (derive_js_engines_frame _ _ "WASM_ENGINES" HA) by done.
    rewrite Hnone. apply flagged_view_none. }
  by rewrite Hw in E5.
Qed.

(** X5: with [EM_WASM_ENGINES] set to the empty string the run of lines
    114-169 never yields a configuration: the override makes
    [WASM_ENGINES] [None], which line 78 cannot iterate over. *)
Theorem empty_wasm_engines_override_fails P w em config st0 :
  environ w !! ("EM_" ++ "WASM_ENGINES") = Some "" →
  ∀ st, apply_config P w em config st0 ≠ Ret st.
Proof.
  intros Henv st Hrun. apply apply_config_inv in Hrun.
  apply (normalize_needs_wasm_engines _ _ _ _ Hrun).
  rewrite propagate_settings_lookup by (unfold CONFIG_KEYS; repeat constructor).
  unfold precedence. by rewrite Henv.
Qed.

Lemma empty_wasm_engines_override_fails_witness :
  environ (Sample.world_of {[ "EM_WASM_ENGINES" := "" ]} Sample.mandatory_text)
    !! ("EM_" ++ "WASM_ENGINES") = Some ""
  ∧ ∀ st, apply_config Sample.install
            (Sample.world_of {[ "EM_WASM_ENGINES" := "" ]} Sample.mandatory_text)
            Sample.config_path Sample.mandatory_config (initial_state Sample.root)
          ≠ Ret st.
Proof.
  assert (environ (Sample.world_of {[ "EM_WASM_ENGINES" := "" ]} Sample.mandatory_text)
            !! ("EM_" ++ "WASM_ENGINES") = Some "") as Henv
    by (vm_compute; reflexivity).
  split; [exact Henv | ].
  exact (empty_wasm_engines_override_fails Sample.install _ Sample.config_path
           Sample.mandatory_config (initial_state Sample.root) Henv).
Defined.

(** X6: a non-empty [EM_SPIDERMONKEY_ENGINE] in which the characters [-w]
    do not occur never yields a configuration either: the override is a
    string, and line 72 adds a list to it. *)
Theorem unflagged_spidermonkey_override_fails P w em config st0 s :
  environ w !! ("EM_" ++ "SPIDERMONKEY_ENGINE") = Some s →
  s ≠ "" → str_contains "-w" s = false →
  ∀ st, apply_config P w em config st0 ≠ Ret st.
Proof.
  intros Henv Hs Hflag st Hrun. apply apply_config_inv in Hrun.
  assert (getg (propagate_settings w config st0) "SPIDERMONKEY_ENGINE" = VStr s) as Hsm.
  { rewrite propagate_settings_lookup by (unfold CONFIG_KEYS; repeat constructor).
    unfold precedence. rewrite Henv. by destruct (String.eqb_spec s ""). }
  apply normalize_inv in Hrun as (st1 & st2 & st3 & st4 & HA & HB & _).
  rewrite <- (derive_js_engines_frame _ _ "SPIDERMONKEY_ENGINE" HA) in Hsm by done.
  unfold tweak_spidermonkey in HB. rewrite Hsm in HB. simpl in HB.
  destruct (String.eqb_spec s ""); [done | ]. simpl in HB.
  by rewrite Hflag in HB.
Qed.

Lemma unflagged_spidermonkey_override_fails_witness :
  environ (Sample.world_of {[ "EM_SPIDERMONKEY_ENGINE" := "/usr/bin/js" ]}
             Sample.mandatory_text) !! ("EM_" ++ "SPIDERMONKEY_ENGINE")
  = Some "/usr/bin/js"
  ∧ "/usr/bin/js" ≠ ""
  ∧ str_contains "-w" "/usr/bin/js" = false
  ∧ ∀ st, apply_config Sample.install
            (Sample.world_of {[ "EM_SPIDERMONKEY_ENGINE" := "/usr/bin/js" ]}
               Sample.mandatory_text)
            Sample.config_path Sample.mandatory_config (initial_state Sample.root)
          ≠ Ret st.
Proof.
  assert (environ (Sample.world_of {[ "EM_SPIDERMONKEY_ENGINE" := "/usr/bin/js" ]}
                     Sample.mandatory_text) !! ("EM_" ++ "SPIDERMONKEY_ENGINE")
          = Some "/usr/bin/js") as Henv by (vm_compute; reflexivity).
  assert ("/usr/bin/js" ≠ "") as Hs by discriminate.
  assert (str_contains "-w" "/usr/bin/js" = false) as Hflag by (vm_compute; reflexivity).
  split; [exact Henv | split; [exact Hs | split; [exact Hflag | ]]].
  exact (unflagged_spidermonkey_override_fails Sample.install _ Sample.config_path
           Sample.mandatory_config (initial_state Sample.root) "/usr/bin/js"
           Henv Hs Hflag).
Defined.

(** ** An engines list given as a string *)

Lemma py_eq_str s v : py_eq (VStr s) v = true → v = VStr s.
Proof.
  destruct v; simpl; try discriminate.
  intros H. by apply String.eqb_eq in H as ->.
Qed.

Lemma spells_string s : spells (list_ascii_of_string s) (VStr s).
Proof.
  eexists. split; [reflexivity | ].
  induction (list_ascii_of_string s) as [ | c cs IH]; simpl; [constructor | ].
  constructor; [by left | exact IH].
Qed.

Lemma char_entry_replaced c x old new :
  char_entry c x → py_eq x old = true →
  (new = old ∨ ∃ st, new = (listify old st).1) → char_entry c new.
Proof.
  intros [-> | [id ->]] Heq Hnew.
  - apply py_eq_str in Heq as ->.
    destruct Hnew as [-> | [st ->]]; [by left | right; by eexists].
  - apply py_eq_single in Heq as [id' ->].
    destruct Hnew as [-> | [st ->]]; right; by eexists.
Qed.

Lemma fix_js_engine_spells old new st r cs :
  fix_js_engine old new st = Ret r →
  (new = old ∨ ∃ st0, new = (listify old st0).1) →
  spells cs (getg st "JS_ENGINES") → spells cs (getg r.2 "JS_ENGINES").
Proof.
  intros H Hnew (items & Hi & Hall).
  destruct (fix_js_engine_engines _ _ _ _ H) as [[_ ->] | (_ & items' & Hi' & ->)];
    [by exists items | ].
  rewrite Hi in Hi'. inversion Hi'; subst items'; clear Hi'.
  eexists. split; [reflexivity | ]. clear Hi.
  induction Hall as [ | c x cs items Hx _ IH]; simpl; [constructor | ].
  constructor; [ | exact IH].
  destruct (py_eq x old) eqn:Heq; [ | done].
  by apply (char_entry_replaced c x old new).
Qed.

Lemma derive_js_engines_keeps st st' :
  derive_js_engines st = Ret st' → truthy (getg st "JS_ENGINES") = true →
  getg st' "JS_ENGINES" = getg st "JS_ENGINES".
Proof.
  unfold derive_js_engines. intros H Ht. rewrite Ht in H. simpl in H.
  destruct (negb (truthy (getg st "JS_ENGINE"))).
  - destruct (first_item (getg st "JS_ENGINES")); [discriminate | ].
    inversion H; subst. by rewrite getg_setg_ne.
  - by inversion H; subst.
Qed.

Lemma tweak_spidermonkey_spells st st' s :
  tweak_spidermonkey st = Ret st' → getg st "JS_ENGINES" = VStr s →
  spells (list_ascii_of_string s) (getg st' "JS_ENGINES").
Proof.
  unfold tweak_spidermonkey. intros H Hje.
  destruct (truthy (getg st "SPIDERMONKEY_ENGINE"));
    [ | inversion H; subst; rewrite Hje; apply spells_string].
  apply bind_ret_inv in H as (s1 & H1 & H). apply bind_ret_inv in H as (r & H2 & H).
  inversion H; subst; clear H. rewrite getg_setg_ne by done.
  apply (fix_js_engine_spells _ _ _ _ _ H2); [by left | ].
  assert (getg s1 "JS_ENGINES" = VStr s) as ->; [ | apply spells_string].
  destruct (negb (str_contains "-w" (py_str (getg st "SPIDERMONKEY_ENGINE"))));
    [ | by inversion H1; subst].
  unfold iadd_list in H1.
  destruct (getg st "SPIDERMONKEY_ENGINE"); try discriminate.
  inversion H1; subst. unfold getg at 1; simpl.
  rewrite getg_extend by done. by rewrite Hje.
Qed.

Lemma fix_listified_spells key st st' cs :
  fix_listified key st = Ret st' → key ≠ "JS_ENGINES" →
  spells cs (getg st "JS_ENGINES") → spells cs (getg st' "JS_ENGINES").
Proof.
  unfold fix_listified. intros H Hne Hsp.
  destruct (listify (getg st key) st) as [new s1] eqn:Hl.
  apply bind_ret_inv in H as (r & H1 & H). inversion H; subst; clear H.
  rewrite getg_setg_ne by done.
  apply (fix_js_engine_spells _ _ _ _ _ H1).
  - right. exists st. by rewrite Hl.
  - pose proof (getg_listify (getg st key) st "JS_ENGINES") as Hg.
    rewrite Hl in Hg. simpl in Hg. by rewrite Hg.
Qed.

Lemma listify_each_wrapped cs items st :
  Forall2 char_entry cs items → Forall2 wrapped_char cs (listify_each items st).1.
Proof.
  intros Hall. revert st.
  induction Hall as [ | c x cs items Hx _ IH]; intros st; simpl; [constructor | ].
  assert (wrapped_char c (listify x st).1) as Hw
    by (destruct Hx as [-> | [id ->]]; by eexists).
  destruct (listify x st) as [x' st1]. specialize (IH st1).
  destruct (listify_each items st1) as [items' st2]. simpl in *.
  by constructor.
Qed.

Lemma listify_entries_wrapped st st' cs :
  listify_entries "JS_ENGINES" st = Ret st' → spells cs (getg st "JS_ENGINES") →
  ∃ id items, getg st' "JS_ENGINES" = VList id items ∧ Forall2 wrapped_char cs items.
Proof.
  unfold listify_entries. intros H (items & Hi & Hall). rewrite Hi in H.
  pose proof (listify_each_wrapped cs items st Hall) as Hw.
  destruct (listify_each items st) as [items' s1]. simpl in *.
  inversion H; subst; clear H. rewrite getg_setg_eq. by eexists _, _.
Qed.

(** X7: a non-empty [EM_JS_ENGINES] is taken character by character: after
    a successful run of lines 114-169 with [EM_JS_ENGINES] set to [s],
    [JS_ENGINES] is a list with one entry per character of [s], each the
    one-item list of that character. *)
Theorem js_engines_override_split P w em config st0 st s :
  environ w !! ("EM_" ++ "JS_ENGINES") = Some s → s ≠ "" →
  apply_config P w em config st0 = Ret st →
  ∃ id items, getg st "JS_ENGINES" = VList id items
              ∧ Forall2 wrapped_char (list_ascii_of_string s) items.
Proof.
  intros Henv Hs Hrun. apply apply_config_inv in Hrun.
  assert (getg (propagate_settings w config st0) "JS_ENGINES" = VStr s) as Hje.
  { rewrite propagate_settings_lookup by (unfold CONFIG_KEYS; repeat constructor).
    unfold precedence. rewrite Henv. by destruct (String.eqb_spec s ""). }
  apply normalize_inv in Hrun as (st1 & st2 & st3 & st4 & HA & HB & HC & HD & ->).
  rewrite !derive_version_suffix_frame by done.
  rewrite (derive_cache_and_ports_frame _ _ _ _ _ HD) by done.
  apply listify_engines_inv in HC
    as (s1 & s2 & s3 & s4 & s5 & E1 & E2 & E3 & E4 & E5 & ->).
  rewrite getg_setg_ne, getg_listify by done.
  rewrite (listify_entries_frame _ _ _ _ E5) by done.
  apply (listify_entries_wrapped _ _ _ E4).
  apply (fix_listified_spells _ _ _ _ E3); [done | ].
  apply (fix_listified_spells _ _ _ _ E2); [done | ].
  apply (fix_listified_spells _ _ _ _ E1); [done | ].
  apply (tweak_spidermonkey_spells _ _ _ HB).
  rewrite (derive_js_engines_keeps _ _ HA); [done | ].
  rewrite Hje. simpl. by destruct (String.eqb_spec s "").
Qed.

(** [EM_JS_ENGINES=d8] gives the engines [['d'], ['8']]. *)
Lemma js_engines_override_split_witness :
  environ (Sample.world_of {[ "EM_JS_ENGINES" := "d8" ]} Sample.mandatory_text)
    !! ("EM_" ++ "JS_ENGINES") = Some "d8"
  ∧ "d8" ≠ ""
  ∧ apply_config Sample.install
      (Sample.world_of {[ "EM_JS_ENGINES" := "d8" ]} Sample.mandatory_text)
      Sample.config_path Sample.mandatory_config (initial_state Sample.root)
    = Ret (state_of (apply_config Sample.install
                       (Sample.world_of {[ "EM_JS_ENGINES" := "d8" ]}
                          Sample.mandatory_text)
                       Sample.config_path Sample.mandatory_config
                       (initial_state Sample.root)))
  ∧ ∃ id items,
      getg (state_of (apply_config Sample.install
                        (Sample.world_of {[ "EM_JS_ENGINES" := "d8" ]}
                           Sample.mandatory_text)
                        Sample.config_path Sample.mandatory_config
                        (initial_state Sample.root))) "JS_ENGINES"
      = VList id items
      ∧ Forall2 wrapped_char (list_ascii_of_string "d8") items.
Proof.
  assert (environ (Sample.world_of {[ "EM_JS_ENGINES" := "d8" ]} Sample.mandatory_text)
            !! ("EM_" ++ "JS_ENGINES") = Some "d8") as Henv by (vm_compute; reflexivity).
  assert ("d8" ≠ "") as Hs by discriminate.
  assert (apply_config Sample.install
            (Sample.world_of {[ "EM_JS_ENGINES" := "d8" ]} Sample.mandatory_text)
            Sample.config_path Sample.mandatory_config (initial_state Sample.root)
          = Ret (state_of (apply_config Sample.install
                             (Sample.world_of {[ "EM_JS_ENGINES" := "d8" ]}
                                Sample.mandatory_text)
                             Sample.config_path Sample.mandatory_config
                             (initial_state Sample.root)))) as Hrun
    by (apply is_ret_state_of; vm_compute; reflexivity).
  split; [exact Henv | split; [exact Hs | split; [exact Hrun | ]]].
  exact (js_engines_override_split Sample.install _ Sample.config_path
           Sample.mandatory_config (initial_state Sample.root) _ "d8" Henv Hs Hrun).
Defined.

(** ** Values that normalization keeps *)

(** X8: a version suffix that is a string after the override loop is
    final, the empty string included: lines 95-99 read the environment
    variable of the same name only for a suffix that is [None]. *)
Theorem version_suffix_kept P w st st' key s :
  normalize_config_settings P w st = Ret st' →
  key = "LLVM_ADD_VERSION" ∨ key = "CLANG_ADD_VERSION" →
  getg st key = VStr s → getg st' key = VStr s.
Proof.
  intros H Hkey Hs.
  apply normalize_inv in H as (st1 & st2 & st3 & st4 & HA & HB & HC & HD & ->).
  assert (getg st4 key = VStr s) as H4.
  { destruct Hkey as [-> | ->];
      rewrite (derive_cache_and_ports_frame _ _ _ _ _ HD) by done;
      rewrite (engine_blocks_frame _ _ _ _ _ HA HB HC) by (done || not_in_keys);
      by rewrite Hs, flagged_view_str. }
  destruct Hkey as [-> | ->].
  - rewrite derive_version_suffix_frame, derive_version_suffix_result by done.
    by rewrite H4.
  - rewrite derive_version_suffix_result, derive_version_suffix_frame by done.
    by rewrite H4.
Qed.

(** The source binds [LLVM_ADD_VERSION = ''] and the environment has
    [LLVM_ADD_VERSION=-15]: the suffix stays empty. *)
Lemma version_suffix_kept_witness :
  normalize_config_settings Sample.install
    (Sample.world_of {[ "LLVM_ADD_VERSION" := "-15" ]} Sample.mandatory_text)
    (setg "LLVM_ADD_VERSION" (VStr "") (initial_state Sample.root))
  = Ret (state_of (normalize_config_settings Sample.install
                     (Sample.world_of {[ "LLVM_ADD_VERSION" := "-15" ]}
                        Sample.mandatory_text)
                     (setg "LLVM_ADD_VERSION" (VStr "") (initial_state Sample.root))))
  ∧ getg (setg "LLVM_ADD_VERSION" (VStr "") (initial_state Sample.root))
      "LLVM_ADD_VERSION" = VStr ""
  ∧ getg (state_of (normalize_config_settings Sample.install
                      (Sample.world_of {[ "LLVM_ADD_VERSION" := "-15" ]}
                         Sample.mandatory_text)
                      (setg "LLVM_ADD_VERSION" (VStr "") (initial_state Sample.root))))
      "LLVM_ADD_VERSION" = VStr "".
Proof.
  assert (normalize_config_settings Sample.install
            (Sample.world_of {[ "LLVM_ADD_VERSION" := "-15" ]} Sample.mandatory_text)
            (setg "LLVM_ADD_VERSION" (VStr "") (initial_state Sample.root))
          = Ret (state_of (normalize_config_settings Sample.install
                             (Sample.world_of {[ "LLVM_ADD_VERSION" := "-15" ]}
                                Sample.mandatory_text)
                             (setg "LLVM_ADD_VERSION" (VStr "")
                                (initial_state Sample.root))))) as Hrun
    by (apply is_ret_state_of; vm_compute; reflexivity).
  assert (getg (setg "LLVM_ADD_VERSION" (VStr "") (initial_state Sample.root))
            "LLVM_ADD_VERSION" = VStr "") as Hs by (vm_compute; reflexivity).
  split; [exact Hrun | split; [exact Hs | ]].
  exact (version_suffix_kept _ _ _ _ "LLVM_ADD_VERSION" "" Hrun (or_introl eq_refl) Hs).
Defined.

(** X9: a cache or ports directory given as a non-empty string is final:
    whether the root is writable and whether [FROZEN_CACHE] is set plays
    no role for it. *)
Theorem explicit_cache_and_ports_kept P w st st' :
  normalize_config_settings P w st = Ret st' →
  (∀ cache, getg st "CACHE" = VStr cache → cache ≠ "" → getg st' "CACHE" = VStr cache)
  ∧ (∀ ports, getg st "PORTS" = VStr ports → ports ≠ "" →
       getg st' "PORTS" = VStr ports).
Proof.
  intros H.
  apply normalize_inv in H as (st1 & st2 & st3 & st4 & HA & HB & HC & HD & ->).
  rewrite !derive_version_suffix_frame by done.
  destruct (derive_cache_and_ports_spec _ _ _ _ HD) as [Hcache Hports].
  rewrite (engine_blocks_frame _ _ _ _ "CACHE" HA HB HC) in Hcache
    by (done || not_in_keys).
  rewrite (engine_blocks_frame _ _ _ _ "PORTS" HA HB HC) in Hports
    by (done || not_in_keys).
  split.
  - intros cache Hc Hne. rewrite Hc, flagged_view_str in Hcache. simpl in Hcache.
    by destruct (String.eqb_spec cache "").
  - intros ports Hp Hne. rewrite Hp, flagged_view_str in Hports. simpl in Hports.
    by destruct (String.eqb_spec ports "").
Qed.

(** With [CACHE = '/x'] the cache is ['/x'] on a writable root too. *)
Lemma explicit_cache_and_ports_kept_witness :
  normalize_config_settings Sample.install (Sample.world_of ∅ Sample.cache_text)
    (propagate_settings (Sample.world_of ∅ Sample.cache_text)
       Sample.cache_config (initial_state Sample.root))
  = Ret (state_of (normalize_config_settings Sample.install
                     (Sample.world_of ∅ Sample.cache_text)
                     (propagate_settings (Sample.world_of ∅ Sample.cache_text)
                        Sample.cache_config (initial_state Sample.root))))
  ∧ getg (state_of (normalize_config_settings Sample.install
                      (Sample.world_of ∅ Sample.cache_text)
                      (propagate_settings (Sample.world_of ∅ Sample.cache_text)
                         Sample.cache_config (initial_state Sample.root))))
      "CACHE" = VStr "/x".
Proof.
  assert (normalize_config_settings Sample.install (Sample.world_of ∅ Sample.cache_text)
            (propagate_settings (Sample.world_of ∅ Sample.cache_text)
               Sample.cache_config (initial_state Sample.root))
          = Ret (state_of (normalize_config_settings Sample.install
                             (Sample.world_of ∅ Sample.cache_text)
                             (propagate_settings (Sample.world_of ∅ Sample.cache_text)
                                Sample.cache_config (initial_state Sample.root)))))
    as Hrun by (apply is_ret_state_of; vm_compute; reflexivity).
  split; [exact Hrun | ].
  apply (proj1 (explicit_cache_and_ports_kept _ _ _ _ Hrun) "/x");
    [vm_compute; reflexivity | discriminate].
Defined.

(** ** What the calls of [fix_js_engine] do to the engines list *)

Lemma py_eq_lists a b xs ys :
  py_eq (VList a xs) (VList b ys) = true ↔ Forall2 (λ x y, py_eq x y = true) xs ys.
Proof.
  simpl. revert ys. induction xs as [ | x xs IH]; intros [ | y ys]; simpl.
  - split; [constructor | done].
  - split; [discriminate | intros H; inversion H].
  - split; [discriminate | intros H; inversion H].
  - rewrite andb_true_iff, IH. split.
    + intros [Hx Hxs]. by constructor.
    + intros H. by inversion H.
Qed.

Lemma py_eq_refl v : py_eq v v = true.
Proof.
  induction v as [ | b | z | s | id items IH] using value_ind_items.
  - done.
  - simpl. by destruct b.
  - simpl. apply Z.eqb_refl.
  - simpl. apply String.eqb_refl.
  - apply py_eq_lists. induction IH as [ | x xs Hx _ IHxs]; by constructor.
Qed.

(** Called with one value as [old] and as [new], [fix_js_engine] leaves an
    engines list equal to what it was. *)
Lemma fix_js_engine_same_value v st r id items :
  fix_js_engine v v st = Ret r → getg st "JS_ENGINES" = VList id items →
  py_eq (VList id items) (getg r.2 "JS_ENGINES") = true.
Proof.
  intros H Hje.
  destruct (fix_js_engine_engines _ _ _ _ H) as [[_ ->] | (_ & items' & Hi & ->)].
  - rewrite Hje. apply py_eq_refl.
  - rewrite Hje in Hi. inversion Hi; subst items'; clear Hi.
    apply py_eq_lists. clear Hje.
    induction items as [ | x xs IH]; simpl; constructor; [ | exact IH].
    destruct (py_eq x v) eqn:Heq; [done | apply py_eq_refl].
Qed.

Lemma is_list_flagged_view sm v : is_list v = true → is_list (flagged_view sm v) = true.
Proof.
  intros Hv. unfold flagged_view. destruct sm as [ | | | | sid xs]; try done.
  destruct (truthy _ && negb _); [ | done].
  destruct v as [ | | | | id items]; try done. simpl.
  by destruct (ident_eqb id sid).
Qed.

(** X10: lines 69-73 replace no entry of [JS_ENGINES] by a different
    value: when [JS_ENGINES] is a list, after them it is equal ([==]) to
    that list as the in-place update of line 72 left it
    ([flagged_view]: the entries that are the [SPIDERMONKEY_ENGINE] object
    show the flag, all others are as they were). *)
Theorem spidermonkey_fixup_replaces_nothing st st' :
  tweak_spidermonkey st = Ret st' → is_list (getg st "JS_ENGINES") = true →
  py_eq (flagged_view (getg st "SPIDERMONKEY_ENGINE") (getg st "JS_ENGINES"))
        (getg st' "JS_ENGINES") = true.
Proof.
  unfold tweak_spidermonkey. intros H Hlist.
  destruct (truthy (getg st "SPIDERMONKEY_ENGINE")) eqn:Ht.
  - apply bind_ret_inv in H as (s1 & H1 & H). apply bind_ret_inv in H as (r & H2 & H).
    inversion H; subst; clear H. rewrite getg_setg_ne by done.
    assert (getg s1 "JS_ENGINES"
            = flagged_view (getg st "SPIDERMONKEY_ENGINE") (getg st "JS_ENGINES"))
      as Hs1.
    { unfold flagged_view. rewrite Ht. simpl.
      destruct (negb (str_contains "-w" (py_str (getg st "SPIDERMONKEY_ENGINE")))).
      - unfold iadd_list in H1.
        destruct (getg st "SPIDERMONKEY_ENGINE"); try discriminate.
        inversion H1; subst. unfold getg at 1; simpl. by apply getg_extend.
      - inversion H1; subst. by destruct (getg s1 "SPIDERMONKEY_ENGINE"). }
    rewrite <- Hs1.
    pose proof (is_list_flagged_view (getg st "SPIDERMONKEY_ENGINE") _ Hlist) as Hl.
    rewrite <- Hs1 in Hl.
    destruct (getg s1 "JS_ENGINES") as [ | | | | id items] eqn:Hje; try discriminate.
    by apply (fix_js_engine_same_value _ _ _ _ _ H2).
  - inversion H; subst. unfold flagged_view. rewrite Ht. simpl.
    destruct (getg st' "SPIDERMONKEY_ENGINE"); apply py_eq_refl.
Qed.

(** Spidermonkey as [['js']], and the engines [[['node'], ['js']]]. *)
Lemma spidermonkey_fixup_replaces_nothing_witness :
  tweak_spidermonkey
    (propagate_settings (Sample.world_of ∅ Sample.spidermonkey_text)
       Sample.spidermonkey_config (initial_state Sample.root))
  = Ret (state_of (tweak_spidermonkey
                     (propagate_settings (Sample.world_of ∅ Sample.spidermonkey_text)
                        Sample.spidermonkey_config (initial_state Sample.root))))
  ∧ is_list (getg (propagate_settings (Sample.world_of ∅ Sample.spidermonkey_text)
                     Sample.spidermonkey_config (initial_state Sample.root))
               "JS_ENGINES") = true
  ∧ py_eq (VList (Cfg 3) [VList (Cfg 1) [VStr "node"]; VList (Cfg 2) [VStr "js"]])
      (getg (state_of (tweak_spidermonkey
                         (propagate_settings
                            (Sample.world_of ∅ Sample.spidermonkey_text)
                            Sample.spidermonkey_config (initial_state Sample.root))))
         "JS_ENGINES") = true.
Proof.
  assert (tweak_spidermonkey
            (propagate_settings (Sample.world_of ∅ Sample.spidermonkey_text)
               Sample.spidermonkey_config (initial_state Sample.root))
          = Ret (state_of (tweak_spidermonkey
                             (propagate_settings
                                (Sample.world_of ∅ Sample.spidermonkey_text)
                                Sample.spidermonkey_config
                                (initial_state Sample.root))))) as Hrun
    by (apply is_ret_state_of; vm_compute; reflexivity).
  assert (is_list (getg (propagate_settings
                           (Sample.world_of ∅ Sample.spidermonkey_text)
                           Sample.spidermonkey_config (initial_state Sample.root))
                     "JS_ENGINES") = true) as Hlist by (vm_compute; reflexivity).
  split; [exact Hrun | split; [exact Hlist | ]].
  refine (eq_trans _ (spidermonkey_fixup_replaces_nothing _ _ Hrun Hlist)).
  vm_compute. reflexivity.
Defined.

Lemma fix_js_engine_length old new st r id items :
  fix_js_engine old new st = Ret r → getg st "JS_ENGINES" = VList id items →
  ∃ id' items', getg r.2 "JS_ENGINES" = VList id' items'
                ∧ List.length items' = List.length items.
Proof.
  intros H Hje.
  destruct (fix_js_engine_engines _ _ _ _ H) as [[_ ->] | (_ & items' & Hi & ->)].
  - by exists id, items.
  - rewrite Hje in Hi. inversion Hi; subst items'; clear Hi.
    eexists _, _. split; [reflexivity | apply length_map].
Qed.

Lemma fix_listified_length key st st' id items :
  fix_listified key st = Ret st' → key ≠ "JS_ENGINES" →
  getg st "JS_ENGINES" = VList id items →
  ∃ id' items', getg st' "JS_ENGINES" = VList id' items'
                ∧ List.length items' = List.length items.
Proof.
  unfold fix_listified. intros H Hne Hje.
  destruct (listify (getg st key) st) as [new s1] eqn:Hl.
  apply bind_ret_inv in H as (r & H1 & H). inversion H; subst; clear H.
  rewrite getg_setg_ne by done.
  eapply fix_js_engine_length; [exact H1 | ].
  pose proof (getg_listify (getg st key) st "JS_ENGINES") as Hg.
  rewrite Hl in Hg. simpl in Hg. by rewrite Hg.
Qed.

Lemma tweak_spidermonkey_length st st' id items :
  tweak_spidermonkey st = Ret st' → getg st "JS_ENGINES" = VList id items →
  (∀ sid xs, getg st "SPIDERMONKEY_ENGINE" = VList sid xs → sid ≠ id) →
  ∃ id' items', getg st' "JS_ENGINES" = VList id' items'
                ∧ List.length items' = List.length items.
Proof.
  unfold tweak_spidermonkey. intros H Hje Hother.
  destruct (truthy (getg st "SPIDERMONKEY_ENGINE"));
    [ | inversion H; subst; by exists id, items].
  apply bind_ret_inv in H as (s1 & H1 & H). apply bind_ret_inv in H as (r & H2 & H).
  inversion H; subst; clear H. rewrite getg_setg_ne by done.
  assert (∃ items1, getg s1 "JS_ENGINES" = VList id items1
                    ∧ List.length items1 = List.length items) as (items1 & Hs1 & Hlen).
  { destruct (negb (str_contains "-w" (py_str (getg st "SPIDERMONKEY_ENGINE"))));
      [ | inversion H1; subst; by exists items].
    unfold iadd_list in H1.
    destruct (getg st "SPIDERMONKEY_ENGINE") as [ | | | | sid xs] eqn:Hsm;
      try discriminate.
    inversion H1; subst. unfold getg at 1; simpl.
    rewrite getg_extend by done. rewrite Hje. simpl.
    destruct (ident_eqb id sid) eqn:Hid.
    - apply ident_eqb_eq in Hid. by destruct (Hother sid xs eq_refl).
    - eexists. split; [reflexivity | apply length_map]. }
  destruct (fix_js_engine_length _ _ _ _ _ _ H2 Hs1) as (id' & items' & Hr & Hlen').
  exists id', items'. split; [done | congruence].
Qed.

(** X11: normalization neither adds nor drops an engine: when
    [JS_ENGINES] is a non-empty list, and not the list object that
    [SPIDERMONKEY_ENGINE] names, a successful [normalize_config_settings]
    ends with a [JS_ENGINES] list of the same length. *)
Theorem js_engines_length_kept P w st st' id items :
  normalize_config_settings P w st = Ret st' →
  getg st "JS_ENGINES" = VList id items → items ≠ [] →
  (∀ sid xs, getg st "SPIDERMONKEY_ENGINE" = VList sid xs → sid ≠ id) →
  ∃ id' items', getg st' "JS_ENGINES" = VList id' items'
                ∧ List.length items' = List.length items.
Proof.
  intros H Hje Hne Hother.
  apply normalize_inv in H as (st1 & st2 & st3 & st4 & HA & HB & HC & HD & ->).
  rewrite !derive_version_suffix_frame by done.
  rewrite (derive_cache_and_ports_frame _ _ _ _ _ HD) by done.
  apply listify_engines_inv in HC
    as (s1 & s2 & s3 & s4 & s5 & E1 & E2 & E3 & E4 & E5 & ->).
  rewrite getg_setg_ne, getg_listify by done.
  rewrite (listify_entries_frame _ _ _ _ E5) by done.
  assert (getg st1 "JS_ENGINES" = VList id items) as H1.
  { rewrite (derive_js_engines_keeps _ _ HA); [done | ].
    rewrite Hje. simpl. by destruct items. }
  assert (∀ sid xs, getg st1 "SPIDERMONKEY_ENGINE" = VList sid xs → sid ≠ id) as Ho1.
  { intros sid xs Hsm. rewrite (derive_js_engines_frame _ _ _ HA) in Hsm by done.
    by apply (Hother sid xs). }
  destruct (tweak_spidermonkey_length _ _ _ _ HB H1 Ho1) as (i2 & l2 & H2 & Hl2).
  destruct (fix_listified_length _ _ _ _ _ E1 ltac:(done) H2) as (i3 & l3 & H3 & Hl3).
  destruct (fix_listified_length _ _ _ _ _ E2 ltac:(done) H3) as (i4 & l4 & H4 & Hl4).
  destruct (fix_listified_length _ _ _ _ _ E3 ltac:(done) H4) as (i5 & l5 & H5 & Hl5).
  unfold listify_entries in E4. rewrite H5 in E4. simpl in E4.
  pose proof (length_listify_each l5 s3) as Hl6.
  destruct (listify_each l5 s3) as [l6 s3']. simpl in *.
  inversion E4; subst; clear E4. rewrite getg_setg_eq.
  eexists _, _. split; [reflexivity | congruence].
Qed.

Lemma js_engines_length_kept_witness :
  normalize_config_settings Sample.install (Sample.world_of ∅ Sample.spidermonkey_text)
    (propagate_settings (Sample.world_of ∅ Sample.spidermonkey_text)
       Sample.spidermonkey_config (initial_state Sample.root))
  = Ret (state_of (normalize_config_settings Sample.install
                     (Sample.world_of ∅ Sample.spidermonkey_text)
                     (propagate_settings (Sample.world_of ∅ Sample.spidermonkey_text)
                        Sample.spidermonkey_config (initial_state Sample.root))))
  ∧ ∃ id' items',
      getg (state_of (normalize_config_settings Sample.install
                        (Sample.world_of ∅ Sample.spidermonkey_text)
                        (propagate_settings
                           (Sample.world_of ∅ Sample.spidermonkey_text)
                           Sample.spidermonkey_config (initial_state Sample.root))))
        "JS_ENGINES" = VList id' items'
      ∧ List.length items' = 2%nat.
Proof.
  assert (normalize_config_settings Sample.install
            (Sample.world_of ∅ Sample.spidermonkey_text)
            (propagate_settings (Sample.world_of ∅ Sample.spidermonkey_text)
               Sample.spidermonkey_config (initial_state Sample.root))
          = Ret (state_of (normalize_config_settings Sample.install
                             (Sample.world_of ∅ Sample.spidermonkey_text)
                             (propagate_settings
                                (Sample.world_of ∅ Sample.spidermonkey_text)
                                Sample.spidermonkey_config
                                (initial_state Sample.root))))) as Hrun
    by (apply is_ret_state_of; vm_compute; reflexivity).
  split; [exact Hrun | ].
  refine (js_engines_length_kept _ _ _ _ (Cfg 3)
            [VList (Cfg 1) [VStr "node"]; VList (Cfg 2) [VStr "js"]] Hrun _ _ _).
  - vm_compute. reflexivity.
  - discriminate.
  - intros sid xs Hsm. vm_compute in Hsm. inversion Hsm. discriminate.
Defined.

(** ** A string engine becomes a command list *)

Lemma derive_js_engines_keeps_engine st st' :
  derive_js_engines st = Ret st' → truthy (getg st "JS_ENGINE") = true →
  getg st' "JS_ENGINE" = getg st "JS_ENGINE".
Proof.
  unfold derive_js_engines. intros H Ht.
  set (st1 := if negb (truthy (getg st "JS_ENGINES")) then _ else st) in H.
  assert (getg st1 "JS_ENGINE" = getg st "JS_ENGINE") as Hst1.
  { subst st1. destruct (negb (truthy (getg st "JS_ENGINES"))); [ | done].
    simpl. by rewrite getg_setg_ne. }
  rewrite Hst1, Ht in H. simpl in H. inversion H; subst. exact Hst1.
Qed.

(** X12: an engine that is a non-empty string [e] when normalization
    starts is the one-item list [[e]] when it ends; this holds for
    [NODE_JS], [V8_ENGINE], [JS_ENGINE] and [CLOSURE_COMPILER]. *)
Theorem string_engine_wrapped P w st st' key e :
  normalize_config_settings P w st = Ret st' →
  key ∈ LISTIFIED_KEYS → getg st key = VStr e → e ≠ "" →
  ∃ id, getg st' key = VList id [VStr e].
Proof.
  intros H Hin He Hne.
  apply normalize_inv in H as (st1 & st2 & st3 & st4 & HA & HB & HC & HD & ->).
  assert (getg st2 key = VStr e) as H2.
  { rewrite (tweak_spidermonkey_frame _ _ _ HB)
      by (unfold LISTIFIED_KEYS in Hin; split_keys Hin; done).
    assert (getg st1 key = VStr e) as ->; [ | apply flagged_view_str].
    unfold LISTIFIED_KEYS in Hin. split_keys Hin;
      try (by rewrite (derive_js_engines_frame _ _ _ HA)).
    rewrite (derive_js_engines_keeps_engine _ _ HA); [done | ].
    rewrite He. simpl. by destruct (String.eqb_spec e ""). }
  apply listify_engines_inv in HC
    as (s1 & s2 & s3 & s4 & s5 & E1 & E2 & E3 & E4 & E5 & ->).
  unfold LISTIFIED_KEYS in Hin.
  split_keys Hin;
    rewrite !derive_version_suffix_frame by done;
    rewrite (derive_cache_and_ports_frame _ _ _ _ _ HD) by done.
  - rewrite getg_setg_ne, getg_listify by done.
    rewrite (listify_entries_frame _ _ _ _ E5) by done.
    rewrite (listify_entries_frame _ _ _ _ E4) by done.
    rewrite (fix_listified_frame _ _ _ _ E3) by done.
    rewrite (fix_listified_frame _ _ _ _ E2) by done.
    rewrite (fix_listified_result _ _ _ E1), H2. by eexists.
  - rewrite getg_setg_ne, getg_listify by done.
    rewrite (listify_entries_frame _ _ _ _ E5) by done.
    rewrite (listify_entries_frame _ _ _ _ E4) by done.
    rewrite (fix_listified_frame _ _ _ _ E3) by done.
    rewrite (fix_listified_result _ _ _ E2).
    rewrite (fix_listified_frame _ _ _ _ E1), H2 by done. by eexists.
  - rewrite getg_setg_ne, getg_listify by done.
    rewrite (listify_entries_frame _ _ _ _ E5) by done.
    rewrite (listify_entries_frame _ _ _ _ E4) by done.
    rewrite (fix_listified_result _ _ _ E3).
    rewrite (fix_listified_frame _ _ _ _ E2) by done.
    rewrite (fix_listified_frame _ _ _ _ E1), H2 by done. by eexists.
  - rewrite getg_setg_eq.
    rewrite (listify_entries_frame _ _ _ _ E5) by done.
    rewrite (listify_entries_frame _ _ _ _ E4) by done.
    rewrite (fix_listified_frame _ _ _ _ E3) by done.
    rewrite (fix_listified_frame _ _ _ _ E2) by done.
    rewrite (fix_listified_frame _ _ _ _ E1), H2 by done. by eexists.
Qed.

(** [JS_ENGINE = 'd8'] ends as [['d8']]. *)
Lemma string_engine_wrapped_witness :
  normalize_config_settings Sample.install (Sample.world_of ∅ Sample.d8_text)
    (propagate_settings (Sample.world_of ∅ Sample.d8_text)
       Sample.d8_config (initial_state Sample.root))
  = Ret (state_of (normalize_config_settings Sample.install
                     (Sample.world_of ∅ Sample.d8_text)
                     (propagate_settings (Sample.world_of ∅ Sample.d8_text)
                        Sample.d8_config (initial_state Sample.root))))
  ∧ "JS_ENGINE" ∈ LISTIFIED_KEYS
  ∧ ∃ id,
      getg (state_of (normalize_config_settings Sample.install
                        (Sample.world_of ∅ Sample.d8_text)
                        (propagate_settings (Sample.world_of ∅ Sample.d8_text)
                           Sample.d8_config (initial_state Sample.root))))
        "JS_ENGINE" = VList id [VStr "d8"].
Proof.
  assert (normalize_config_settings Sample.install (Sample.world_of ∅ Sample.d8_text)
            (propagate_settings (Sample.world_of ∅ Sample.d8_text)
               Sample.d8_config (initial_state Sample.root))
          = Ret (state_of (normalize_config_settings Sample.install
                             (Sample.world_of ∅ Sample.d8_text)
                             (propagate_settings (Sample.world_of ∅ Sample.d8_text)
                                Sample.d8_config (initial_state Sample.root)))))
    as Hrun by (apply is_ret_state_of; vm_compute; reflexivity).
  assert ("JS_ENGINE" ∈ LISTIFIED_KEYS) as Hin
    by (unfold LISTIFIED_KEYS; repeat constructor).
  split; [exact Hrun | split; [exact Hin | ]].
  refine (string_engine_wrapped _ _ _ _ "JS_ENGINE" "d8" Hrun Hin _ _);
    [vm_compute; reflexivity | discriminate].
Defined.

(** ** The module body *)

Lemma generate_config_world P w path w' :
  generate_config P w path = Ret w' →
  path_exists w path = false ∧ ∃ text, w' = write_file path text w.
Proof.
  unfold generate_config. intros H.
  destruct (path_exists w path); [discriminate | ]. split; [done | ].
  apply bind_ret_inv in H as (template & _ & H). inversion H; subst. by eexists.
Qed.

Lemma successful_import_inv P w argv st :
  res_outcome (load_module P w argv) = Ret st →
  ∃ em argv',
    locate_config P w argv = Ret (em, argv')
    ∧ str_contains newline em = false
    ∧ ("--generate-config" ∉ argv')
    ∧ path_exists w (expanduser P (home w) em) = true
    ∧ load_module P w argv
      = parse_config_file P (set_environ "EM_CONFIG" (expanduser P (home w) em) w)
          argv' (expanduser P (home w) em) (initial_state (rootpath P)).
Proof.
  unfold load_module. intros H.
  destruct (locate_config P w argv) as [[em argv'] | | | ]; try discriminate.
  exists em, argv'. split; [done | ].
  destruct (str_contains newline em); [discriminate | ]. split; [done | ].
  case_bool_decide as Hflag.
  { by destruct (generate_config P w (expanduser P (home w) em)). }
  split; [done | ].
  destruct (path_exists w (expanduser P (home w) em)); [ | discriminate].
  by repeat split.
Qed.

Lemma path_exists_true w path : path_exists w path = true → ∃ text, files w !! path = Some text.
Proof. unfold path_exists. intros H. by apply bool_decide_eq_true_1 in H as [text ->]; exists text. Qed.

Lemma set_environ_twice name v w :
  set_environ name v (set_environ name v w) = set_environ name v w.
Proof. unfold set_environ. simpl. by rewrite insert_insert_eq. Qed.

(** X14: a child process resolves what its parent resolved.  After a
    successful import of a configuration text that only binds names, an
    import in the world it left, from arguments with neither
    [--em-config] nor [--generate-config], ends in the same state and
    changes nothing, provided [expanduser] leaves an expanded path as it
    is and brings no newline into a path.  (A text that runs other code
    may behave differently in the child, see C8.) *)
Theorem child_process_resolves_alike P w argv st child_argv :
  res_outcome (load_module P w argv) = Ret st →
  (∀ text, config_source P w argv = Some text → plain_source P text) →
  "--em-config" ∉ child_argv → "--generate-config" ∉ child_argv →
  (∀ p, expanduser P (home w) (expanduser P (home w) p) = expanduser P (home w) p) →
  (∀ p, str_contains newline p = false →
        str_contains newline (expanduser P (home w) p) = false) →
  res_outcome (load_module P (res_world (load_module P w argv)) child_argv) = Ret st
  ∧ res_world (load_module P (res_world (load_module P w argv)) child_argv)
    = res_world (load_module P w argv)
  ∧ res_argv (load_module P (res_world (load_module P w argv)) child_argv) = child_argv.
Proof.
  intros Hrun Hplain Hflag Hgen Hidem Hnl.
  destruct (successful_import_inv P w argv st Hrun)
    as (em & argv' & Hloc & Hnl0 & _ & Hex & Hload).
  unfold config_source in Hplain. rewrite Hloc in Hplain.
  set (target := expanduser P (home w) em) in *.
  destruct (path_exists_true _ _ Hex) as [text Htext].
  destruct (Hplain text Htext) as [Hquiet Hsame].
  set (w' := set_environ "EM_CONFIG" target w) in *.
  assert (files w' !! target = Some text) as Htext' by exact Htext.
  rewrite Hload in Hrun |- *.
  rewrite (parse_quiet_source P w' argv' target _ text Htext' Hquiet) in Hrun |- *.
  simpl in Hrun |- *.
  unfold load_module, locate_config.
  rewrite (index_of_absent _ _ Hflag).
  assert (environ w' !! "EM_CONFIG" = Some target) as -> by apply lookup_insert_eq.
  assert (home w' = home w) as -> by (by apply lookup_insert_ne).
  subst target. rewrite (Hnl _ Hnl0), Hidem.
  set (target := expanduser P (home w) em) in *.
  rewrite (bool_decide_eq_false_2 _ Hgen).
  assert (path_exists w' target = true) as -> by exact Hex.
  simpl. subst w'. rewrite set_environ_twice.
  set (w' := set_environ "EM_CONFIG" target w) in *.
  rewrite (parse_quiet_source P w' child_argv target _ text Htext' Hquiet). simpl.
  by rewrite (Hsame w' child_argv w' argv').
Qed.

Lemma sample_expand_twice p :
  Sample.expand None (Sample.expand None p) = Sample.expand None p.
Proof. destruct p as [ | [[] [] [] [] [] [] [] []] rest]; reflexivity. Qed.

Lemma sample_expand_newline p :
  str_contains newline p = false → str_contains newline (Sample.expand None p) = false.
Proof.
  destruct p as [ | [[] [] [] [] [] [] [] []] rest]; done.
Qed.

(** A compiler run started by [emcc -O2] sees the configuration of
    [emcc -O2]. *)
Lemma child_process_resolves_alike_witness :
  res_outcome (load_module Sample.install (Sample.world_of ∅ Sample.mandatory_text)
                 ["emcc"; "-O2"])
  = Ret (state_of (res_outcome (load_module Sample.install
                                  (Sample.world_of ∅ Sample.mandatory_text)
                                  ["emcc"; "-O2"])))
  ∧ plain_source Sample.install Sample.mandatory_text
  ∧ ("--em-config" ∉ ["clang"; "-c"])
  ∧ ("--generate-config" ∉ ["clang"; "-c"])
  ∧ res_outcome
      (load_module Sample.install
         (res_world (load_module Sample.install
                       (Sample.world_of ∅ Sample.mandatory_text) ["emcc"; "-O2"]))
         ["clang"; "-c"])
    = Ret (state_of (res_outcome (load_module Sample.install
                                    (Sample.world_of ∅ Sample.mandatory_text)
                                    ["emcc"; "-O2"]))).
Proof.
  assert (res_outcome (load_module Sample.install
                         (Sample.world_of ∅ Sample.mandatory_text) ["emcc"; "-O2"])
          = Ret (state_of (res_outcome (load_module Sample.install
                                          (Sample.world_of ∅ Sample.mandatory_text)
                                          ["emcc"; "-O2"])))) as Hrun
    by (apply is_ret_state_of; vm_compute; reflexivity).
  assert (plain_source Sample.install Sample.mandatory_text) as Hplain
    by (apply sample_plain_source; discriminate).
  assert ("--em-config" ∉ ["clang"; "-c"]) as Hflag
    by (apply (bool_decide_unpack _); vm_compute; exact I).
  assert ("--generate-config" ∉ ["clang"; "-c"]) as Hgen
    by (apply (bool_decide_unpack _); vm_compute; exact I).
  split; [exact Hrun | split; [exact Hplain | split; [exact Hflag | split; [exact Hgen | ]]]].
  refine (proj1 (child_process_resolves_alike Sample.install _ _ _ ["clang"; "-c"]
                   Hrun _ Hflag Hgen sample_expand_twice sample_expand_newline)).
  intros text Hsrc. vm_compute in Hsrc. inversion Hsrc; subst text. exact Hplain.
Defined.

Lemma path_exists_false w path : path_exists w path = false → files w !! path = None.
Proof.
  unfold path_exists. intros H. apply bool_decide_eq_false_1 in H.
  by apply eq_None_not_Some.
Qed.

(** X15: what the module itself never does.  When the configuration text
    has no side effects, an import leaves the writability of the root,
    the time and every environment variable other than [EM_CONFIG] as
    they were, and leaves [sys.argv] as the locator left it; and it
    changes the file system only when it ends with [sys.exit(0)] after
    generating a configuration, and then only at a path where no file
    was.  Every other change is made by the evaluated text. *)
Theorem import_touches_little P w argv :
  (∀ text, config_source P w argv = Some text → quiet_source P text) →
  root_writable (res_world (load_module P w argv)) = root_writable w
  ∧ clock (res_world (load_module P w argv)) = clock w
  ∧ (∀ name, name ≠ "EM_CONFIG" →
       environ (res_world (load_module P w argv)) !! name = environ w !! name)
  ∧ (∀ path, files (res_world (load_module P w argv)) !! path ≠ files w !! path →
       res_outcome (load_module P w argv) = Exited 0 ∧ files w !! path = None)
  ∧ (∀ em argv', locate_config P w argv = Ret (em, argv') →
       res_argv (load_module P w argv) = argv').
Proof.
  intros Hquiet. unfold config_source in Hquiet. unfold load_module.
  destruct (locate_config P w argv) as [[em argv'] | | | ]; try done.
  set (target := expanduser P (home w) em) in *.
  assert (∀ em0 argv0, Ret (em, argv') = Ret (em0, argv0) → argv' = argv0) as Hinj
    by (by intros em0 argv0 [= _ ->]).
  destruct (str_contains newline em).
  { repeat split; try done; intros em0 argv0 H; by apply Hinj in H. }
  case_bool_decide as Hflag.
  - destruct (generate_config P w target) as [w' | | | ] eqn:Hgen;
      try (repeat split; try done; intros em0 argv0 H; by apply Hinj in H);
      try (by repeat split).
    apply generate_config_world in Hgen as [Hex [text ->]]. simpl.
    split; [done | split; [done | split; [done | split]]].
    + intros path Hdiff. split; [done | ].
      destruct (decide (target = path)) as [<- | Hne].
      * by apply path_exists_false.
      * by rewrite lookup_insert_ne in Hdiff.
    + intros em0 argv0 H. by apply Hinj in H.
  - destruct (path_exists w target); simpl;
      [ | repeat split; try done; intros em0 argv0 H; by apply Hinj in H].
    destruct (parse_config_file_argv P (set_environ "EM_CONFIG" target w) argv' target
                (initial_state (rootpath P))) as [-> ->]; [done | ].
    split; [done | split; [done | split; [ | split; [done | ]]]].
    + intros name Hne. by apply lookup_insert_ne.
    + intros em0 argv0 H. by apply Hinj in H.
Qed.

(** An import of the minimal configuration. *)
Lemma import_touches_little_witness :
  quiet_source Sample.install Sample.mandatory_text
  ∧ files (res_world (load_module Sample.install
                        (Sample.world_of ∅ Sample.mandatory_text) ["emcc"; "-O2"]))
    = files (Sample.world_of ∅ Sample.mandatory_text).
Proof.
  assert (quiet_source Sample.install Sample.mandatory_text) as Hquiet
    by (by intros w argv).
  split; [exact Hquiet | ].
  assert (∀ text,
            config_source Sample.install (Sample.world_of ∅ Sample.mandatory_text)
              ["emcc"; "-O2"] = Some text →
            quiet_source Sample.install text) as Hsrc.
  { intros text H. vm_compute in H. inversion H; subst text. exact Hquiet. }
  apply map_eq. intros path.
  destruct (decide (files (res_world (load_module Sample.install
                                        (Sample.world_of ∅ Sample.mandatory_text)
                                        ["emcc"; "-O2"])) !! path
                    = files (Sample.world_of ∅ Sample.mandatory_text) !! path))
    as [Heq | Hne]; [exact Heq | ].
  destruct (proj1 (proj2 (proj2 (proj2 (import_touches_little Sample.install
                                          (Sample.world_of ∅ Sample.mandatory_text)
                                          ["emcc"; "-O2"] Hsrc)))) path Hne)
    as [Hexit _].
  vm_compute in Hexit. discriminate.
Defined.

(** ** Variables the module does not read *)


